(** * A shallow embedding of [pytorch_lightning/utilities/cli.py]

    The module is orchestration code: a parser extension
    ([LightningArgumentParser]), an observer ([SaveConfigCallback]) and the
    template method [LightningCLI.__init__].  Python objects become records,
    dictionaries become [gmap string pyval], attribute mutation becomes
    explicit state passing and exceptions become the [Raise] outcome of a
    small state-and-exception monad.  In this monad the state reached at the
    point of a [Raise] is kept, as Python keeps the mutations made before an
    exception.

    Values are compared by content.  The one in-place mutation of the
    module, the [append] to the list under ['callbacks'], is rendered on
    the entry of [trainer_kwargs]; whether that list object is also reachable
    from a configuration tree depends on the copying done by the parsing
    library and is not tracked.

    The parsing library and the trainer are outside the module.  Their
    operations are parameters of the development, or are modelled from the
    specification where a statement needs their behaviour; each such
    definition says so. *)

From Stdlib Require Import Ascii.
From stdpp Require Import base strings list gmap.

(** ** Exceptions *)

(** The exception classes the module can let escape.  The specification's
    names are given on the right. *)
Inductive error :=
| AssertionError                 (* TypeMismatch: a failed [assert issubclass] *)
| KeyError (key : string)        (* subscript of a missing dictionary key *)
| AttributeError (attr : string) (* attribute missing on the receiver; StateError *)
| TypeError (what : string)      (* ConstructionError: a call that does not fit a signature *)
| ParseError (dest : string)     (* raised by the parse operation *)
| Exception (msg : string).      (* anything a collaborator raises on its own *)

Inductive result (A : Type) :=
| Ok (a : A)
| Raise (e : error).
Arguments Ok {A} a.
Arguments Raise {A} e.

(** ** The state-and-exception monad *)

Definition M (S A : Type) : Type := S -> result A * S.

Definition ret {S A} (a : A) : M S A := fun s => (Ok a, s).

Definition raise {S A} (e : error) : M S A := fun s => (Raise e, s).

Definition bind {S A B} (m : M S A) (k : A -> M S B) : M S B :=
  fun s =>
    match m s with
    | (Ok a, s') => k a s'
    | (Raise e, s') => (Raise e, s')
    end.

Definition get {S} : M S S := fun s => (Ok s, s).

Definition modify {S} (f : S -> S) : M S unit := fun s => (Ok tt, f s).

Definition lift_result {S A} (r : result A) : M S A := fun s => (r, s).

Declare Scope py_scope.
Delimit Scope py_scope with py.
Notation "x <- m ;; k" := (bind m (fun x => k))
  (at level 100, m at next level, right associativity) : py_scope.
Notation "m ;; k" := (bind m (fun _ => k))
  (at level 100, right associativity) : py_scope.
Local Open Scope py_scope.

(** [assert b] *)
Definition py_assert {S} (b : bool) : M S unit :=
  if b then ret tt else raise AssertionError.

(** ** The argument parser, parametrised by the type of values *)

(** One registered option.  [opt_group] is the nested key it was registered
    under ([None] for a top-level option such as [--config]); an option with
    no default is a required one. *)
Record option_spec (V : Type) := {
  opt_group : option string;
  opt_name : string;
  opt_default : option V;
  opt_config_file : bool   (* [action=ActionConfigFile] *)
}.
Arguments opt_group {V} _.
Arguments opt_name {V} _.
Arguments opt_default {V} _.
Arguments opt_config_file {V} _.

Record ArgumentParser (V : Type) := {
  description : string;
  default_config_files : option (list string);
  default_env : bool;
  env_prefix : string;
  parse_as_dict : bool;
  options : list (option_spec V)
}.
Arguments description {V} _.
Arguments default_config_files {V} _.
Arguments default_env {V} _.
Arguments env_prefix {V} _.
Arguments parse_as_dict {V} _.
Arguments options {V} _.

(** ** Python values *)

(** Dictionaries are finite maps; an instance of [SaveConfigCallback] holds
    its two attributes; an instance of any other class is its class name and
    its attribute dictionary. *)
#[warnings="-register-all"]
Inductive pyval :=
| VNone
| VBool (b : bool)
| VInt (z : Z)
| VStr (s : string)
| VList (l : list pyval)
| VDict (d : gmap string pyval)
| VSaveConfigCallback (parser : ArgumentParser pyval) (config : pyval)
| VInstance (cls : string) (attrs : gmap string pyval).

Abbreviation LightningArgumentParser := (ArgumentParser pyval).

Definition is_None (v : pyval) : bool :=
  match v with VNone => true | _ => false end.

(** [d.get(k)]: [None] for a missing key. *)
Definition dict_get (d : gmap string pyval) (k : string) : pyval :=
  default VNone (d !! k).

(** [d.update(e)]: the entries of [e] replace those of [d]. *)
Definition dict_update (d e : gmap string pyval) : gmap string pyval := e ∪ d.

(** [v.a] *)
Definition getattr (v : pyval) (a : string) : result pyval :=
  match v with
  | VInstance _ attrs =>
      match attrs !! a with
      | Some x => Ok x
      | None => Raise (AttributeError a)
      end
  | _ => Raise (AttributeError a)
  end.

(** Following a path of keys through nested dictionaries. *)
Fixpoint lookup_path (path : list string) (v : pyval) : option pyval :=
  match path with
  | [] => Some v
  | k :: rest =>
      match v with
      | VDict d => d !! k ≫= lookup_path rest
      | _ => None
      end
  end.

(** ** Classes *)

Record param := {
  param_name : string;
  param_default : option pyval
}.

(** A class as the module sees it: its name, the names of its proper
    superclasses, the signature of [__init__] (with [self] first, as
    introspection shows it), whether the signature ends in [**kwargs], and
    what the constructor does with the bound arguments. *)
Record class := {
  cls_name : string;
  cls_bases : list string;
  cls_signature : list param;
  cls_var_keyword : bool;
  cls_body : gmap string pyval -> result pyval
}.

Definition issubclass (c : class) (base : string) : bool :=
  bool_decide (base ∈ cls_name c :: cls_bases c).

Definition init_params (c : class) : list param :=
  filter (λ p, param_name p ≠ "self") (cls_signature c).

(** Binding keyword arguments to a signature: a parameter that is neither
    passed nor defaulted is a [TypeError]. *)
Fixpoint bind_params (ps : list param) (kw : gmap string pyval)
  : result (gmap string pyval) :=
  match ps with
  | [] => Ok ∅
  | p :: ps' =>
      match kw !! param_name p, param_default p with
      | Some v, _ | None, Some v =>
          match bind_params ps' kw with
          | Ok b => Ok (<[param_name p := v]> b)
          | Raise e => Raise e
          end
      | None, None => Raise (TypeError (param_name p))
      end
  end.

Definition unexpected_keywords (c : class) (kw : gmap string pyval) : list string :=
  filter (λ k, k ∉ param_name <$> init_params c) (elements (dom kw)).

(** The call of [c] with the keyword arguments [kw]. *)
Definition py_call (c : class) (kw : gmap string pyval) : result pyval :=
  match bind_params (init_params c) kw with
  | Raise e => Raise e
  | Ok bound =>
      match unexpected_keywords c kw with
      | [] => cls_body c bound
      | k :: _ =>
          if cls_var_keyword c then cls_body c (kw ∪ bound)
          else Raise (TypeError k)
      end
  end.

(** A class used through a two-argument positional call, as
    [save_config_callback(self.parser, self.config)] is. *)
Record callback_class := {
  cb_name : string;
  cb_new : LightningArgumentParser -> pyval -> result pyval
}.

(** ** [LightningArgumentParser] *)

Definition opt_dest {V} (o : option_spec V) : string :=
  match opt_group o with
  | Some g => g +:+ "." +:+ opt_name o
  | None => opt_name o
  end.

Definition set_options {V} (os : list (option_spec V)) (p : ArgumentParser V)
  : ArgumentParser V :=
  {| description := description p;
     default_config_files := default_config_files p;
     default_env := default_env p;
     env_prefix := env_prefix p;
     parse_as_dict := parse_as_dict p;
     options := os |}.

(** [self.add_argument('--config', action=ActionConfigFile, ...)] *)
Definition add_config_argument : M LightningArgumentParser unit :=
  modify (λ p, set_options
    (options p ++ [ {| opt_group := None; opt_name := "config";
                       opt_default := Some VNone; opt_config_file := true |} ]) p).

(** [LightningArgumentParser.__init__]: the keyword [parse_as_dict] defaults
    to [True]; the remaining keywords go to the base class unchanged. *)
Definition LightningArgumentParser_init
    (parse_as_dict_kw : option bool)
    (description_kw : string) (default_config_files_kw : option (list string))
    (default_env_kw : bool) (env_prefix_kw : string) : LightningArgumentParser :=
  let base := {| description := description_kw;
                 default_config_files := default_config_files_kw;
                 default_env := default_env_kw;
                 env_prefix := env_prefix_kw;
                 parse_as_dict := default true parse_as_dict_kw;
                 options := [] |} in
  (add_config_argument base).2.

Definition class_option (nested_key : string) (p : param) : option_spec pyval :=
  {| opt_group := Some nested_key; opt_name := param_name p;
     opt_default := param_default p; opt_config_file := false |}.

(** Modelled from the spec: [add_class_arguments] belongs to the underlying
    parsing library, which is not part of the sources.  It registers each
    constructor parameter, excluding [self], as an option under
    [<nested_key>.<parameter_name>], with the default of the signature, and
    returns the names of the options it added. *)
Definition add_class_arguments (c : class) (nested_key : string)
  : M LightningArgumentParser (list string) :=
  fun p =>
    let added := class_option nested_key <$> init_params c in
    (Ok (opt_dest <$> added), set_options (options p ++ added) p).

(** [add_trainer_args]; the defaults of the two parameters are the base
    trainer class and ['trainer']. *)
Definition add_trainer_args (Trainer : class)
    (trainer_class : option class) (nested_key : option string)
  : M LightningArgumentParser (list string) :=
  let trainer_class := default Trainer trainer_class in
  let nested_key := default "trainer" nested_key in
  py_assert (issubclass trainer_class (cls_name Trainer)) ;;
  add_class_arguments trainer_class nested_key.

(** [add_module_args]; [nested_key] defaults to ['module']. *)
Definition add_module_args (module_class : class) (nested_key : option string)
  : M LightningArgumentParser (list string) :=
  let nested_key := default "module" nested_key in
  py_assert (issubclass module_class "LightningModule") ;;
  add_class_arguments module_class nested_key.

(** [add_datamodule_args]; [nested_key] defaults to ['data']. *)
Definition add_datamodule_args (datamodule_class : class) (nested_key : option string)
  : M LightningArgumentParser (list string) :=
  let nested_key := default "data" nested_key in
  py_assert (issubclass datamodule_class "LightningDataModule") ;;
  add_class_arguments datamodule_class nested_key.

(** ** The world outside the process *)

(** What the parse operation reads and what the save operation writes.
    [w_cli] holds the values given as command-line flags and [w_config] the
    values loaded from configuration files, both by option name; [w_environ]
    holds the environment, by variable name; [w_files] holds the files that
    were written, by path. *)
Record World := {
  w_cli : gmap string pyval;
  w_environ : gmap string pyval;
  w_config : gmap string pyval;
  w_files : gmap string pyval
}.

Definition set_files (f : gmap string pyval) (w : World) : World :=
  {| w_cli := w_cli w; w_environ := w_environ w; w_config := w_config w;
     w_files := f |}.

(** ** The parse and save operations of the underlying parser *)

Section Parse.
(** The name of the environment variable of an option, from the parser's
    prefix and the option's name: fixed by the parsing library. *)
Variable env_var_name : string -> string -> string.

Definition from_cli (w : World) (o : option_spec pyval) : option pyval :=
  w_cli w !! opt_dest o.

Definition from_env (p : LightningArgumentParser) (w : World)
    (o : option_spec pyval) : option pyval :=
  if default_env p
  then w_environ w !! env_var_name (env_prefix p) (opt_dest o)
  else None.

Definition from_config_file (w : World) (o : option_spec pyval) : option pyval :=
  w_config w !! opt_dest o.

(** Modelled from the spec: the resolution of one option by the parse
    operation of the underlying parsing library, "in priority order
    CLI > env > config-file > built-in-default". *)
Definition resolve (p : LightningArgumentParser) (w : World)
    (o : option_spec pyval) : option pyval :=
  match from_cli w o with
  | Some v => Some v
  | None =>
      match from_env p w o with
      | Some v => Some v
      | None =>
          match from_config_file w o with
          | Some v => Some v
          | None => opt_default o
          end
      end
  end.

(** Storing a resolved value in the tree, under the option's nested key. *)
Definition tree_insert (o : option_spec pyval) (v : pyval)
    (t : gmap string pyval) : gmap string pyval :=
  match opt_group o with
  | None => <[opt_name o := v]> t
  | Some g =>
      let sub := match t !! g with Some (VDict d) => d | _ => ∅ end in
      <[g := VDict (<[opt_name o := v]> sub)]> t
  end.

Fixpoint parse_options (p : LightningArgumentParser) (w : World)
    (os : list (option_spec pyval)) (t : gmap string pyval)
  : result (gmap string pyval) :=
  match os with
  | [] => Ok t
  | o :: os' =>
      match resolve p w o with
      | Some v => parse_options p w os' (tree_insert o v t)
      | None => Raise (ParseError (opt_dest o))
      end
  end.

(** Modelled from the spec: [parse_args] of the underlying parsing
    library.  It resolves every registered option and produces the
    configuration tree, and "fails with a ParseError if required arguments
    are missing". *)
Definition parse_args (p : LightningArgumentParser) : M World pyval :=
  fun w =>
    match parse_options p w (options p) ∅ with
    | Ok t => (Ok (if parse_as_dict p then VDict t else VInstance "Namespace" t), w)
    | Raise e => (Raise e, w)
    end.
End Parse.

(** Removing, at every level, the keys whose value is [None]. *)
Fixpoint strip_none (v : pyval) : pyval :=
  match v with
  | VDict d => VDict (omap (λ x, if is_None x then None else Some (strip_none x)) d)
  | _ => v
  end.

(** Modelled from the spec: the [save] operation of the underlying parsing
    library "serializes a given configuration tree to a file, optionally
    omitting keys whose value is the configured no-value sentinel".  The file
    is represented by the tree it serializes. *)
Definition save (p : LightningArgumentParser) (cfg : pyval) (path : string)
    (skip_none : bool) : M World unit :=
  modify (λ w, set_files
    (<[path := if skip_none then strip_none cfg else cfg]> (w_files w)) w).

(** ** [os.path.join] on two components (POSIX) *)

Definition starts_with_slash (s : string) : bool :=
  match s with
  | String c _ => bool_decide (c = "/"%char)
  | EmptyString => false
  end.

Fixpoint ends_with_slash (s : string) : bool :=
  match s with
  | EmptyString => false
  | String c EmptyString => bool_decide (c = "/"%char)
  | String _ r => ends_with_slash r
  end.

Definition os_path_join (a b : string) : string :=
  if starts_with_slash b then b
  else if bool_decide (a = "") || ends_with_slash a then a +:+ b
  else a +:+ "/" +:+ b.

(** ** [SaveConfigCallback] *)

(** [SaveConfigCallback.__init__] stores its two arguments. *)
Definition SaveConfigCallback : callback_class :=
  {| cb_name := "SaveConfigCallback";
     cb_new := λ parser config, Ok (VSaveConfigCallback parser config) |}.

(** [SaveConfigCallback.on_train_start] *)
Definition on_train_start (self trainer pl_module : pyval) : M World unit :=
  logger <- lift_result (getattr trainer "logger") ;;
  log_dir <- lift_result (getattr logger "log_dir") ;;
  match log_dir with
  | VStr d =>
      let config_path := os_path_join d "config.yaml" in
      match self with
      | VSaveConfigCallback parser config => save parser config config_path false
      | _ => raise (AttributeError "parser")
      end
  | _ => raise (TypeError "expected str, bytes or os.PathLike object")
  end.

(** ** The [LightningCLI] object *)

(** The attributes of [self].  Those that [__init__] assigns later are
    [None] until then; reading one that is unset is an [AttributeError]. *)
Record LightningCLI := {
  model_class : class;
  datamodule_class : option class;
  save_config_callback : option callback_class;
  trainer_class : class;
  trainer_kwargs : gmap string pyval;
  parser : option LightningArgumentParser;
  config : option pyval;
  config_init : option pyval;
  model : option pyval;
  fit_kwargs : option (gmap string pyval);
  trainer : option pyval;
  fit_result : option pyval
}.

Definition set_trainer_kwargs (f : gmap string pyval -> gmap string pyval)
    (c : LightningCLI) : LightningCLI :=
  Build_LightningCLI (model_class c) (datamodule_class c) (save_config_callback c)
    (trainer_class c) (f (trainer_kwargs c)) (parser c) (config c) (config_init c)
    (model c) (fit_kwargs c) (trainer c) (fit_result c).

Definition set_parser (v : LightningArgumentParser) (c : LightningCLI) : LightningCLI :=
  Build_LightningCLI (model_class c) (datamodule_class c) (save_config_callback c)
    (trainer_class c) (trainer_kwargs c) (Some v) (config c) (config_init c)
    (model c) (fit_kwargs c) (trainer c) (fit_result c).

Definition set_config (v : pyval) (c : LightningCLI) : LightningCLI :=
  Build_LightningCLI (model_class c) (datamodule_class c) (save_config_callback c)
    (trainer_class c) (trainer_kwargs c) (parser c) (Some v) (config_init c)
    (model c) (fit_kwargs c) (trainer c) (fit_result c).

Definition set_config_init (v : pyval) (c : LightningCLI) : LightningCLI :=
  Build_LightningCLI (model_class c) (datamodule_class c) (save_config_callback c)
    (trainer_class c) (trainer_kwargs c) (parser c) (config c) (Some v)
    (model c) (fit_kwargs c) (trainer c) (fit_result c).

Definition set_model (v : pyval) (c : LightningCLI) : LightningCLI :=
  Build_LightningCLI (model_class c) (datamodule_class c) (save_config_callback c)
    (trainer_class c) (trainer_kwargs c) (parser c) (config c) (config_init c)
    (Some v) (fit_kwargs c) (trainer c) (fit_result c).

Definition set_fit_kwargs (v : gmap string pyval) (c : LightningCLI) : LightningCLI :=
  Build_LightningCLI (model_class c) (datamodule_class c) (save_config_callback c)
    (trainer_class c) (trainer_kwargs c) (parser c) (config c) (config_init c)
    (model c) (Some v) (trainer c) (fit_result c).

Definition set_trainer (v : pyval) (c : LightningCLI) : LightningCLI :=
  Build_LightningCLI (model_class c) (datamodule_class c) (save_config_callback c)
    (trainer_class c) (trainer_kwargs c) (parser c) (config c) (config_init c)
    (model c) (fit_kwargs c) (Some v) (fit_result c).

Definition set_fit_result (v : pyval) (c : LightningCLI) : LightningCLI :=
  Build_LightningCLI (model_class c) (datamodule_class c) (save_config_callback c)
    (trainer_class c) (trainer_kwargs c) (parser c) (config c) (config_init c)
    (model c) (fit_kwargs c) (trainer c) (Some v).

(** ** The steps of the template and the state of one invocation *)

(** The ten calls of [LightningCLI.__init__], in the order of the source. *)
Inductive step :=
| InitParser
| AddArgumentsToParser
| AddCoreArgumentsToParser
| BeforeParseArguments
| ParseArguments
| BeforeInstantiateClasses
| InstantiateClasses
| BeforeFit
| Fit
| AfterFit.

#[export] Instance step_eq_dec : EqDecision step.
Proof. solve_decision. Defined.

(** Entering and leaving a step. *)
Inductive event :=
| Enter (s : step)
| Leave (s : step).

#[export] Instance event_eq_dec : EqDecision event.
Proof. solve_decision. Defined.

Record state := {
  self : LightningCLI;
  world : World;
  trace : list event   (* most recent event last *)
}.

Definition get_self : M state LightningCLI := fun st => (Ok (self st), st).

Definition modify_self (f : LightningCLI -> LightningCLI) : M state unit :=
  modify (λ st, {| self := f (self st); world := world st; trace := trace st |}).

Definition log (e : event) : M state unit :=
  modify (λ st, {| self := self st; world := world st; trace := trace st ++ [e] |}).

(** Reading an attribute of [self] that a previous step must have set. *)
Definition attr {A} (name : string) (proj : LightningCLI -> option A) : M state A :=
  c <- get_self ;;
  match proj c with
  | Some a => ret a
  | None => raise (AttributeError name)
  end.

(** A computation on the world, run from the pipeline. *)
Definition in_world {A} (m : M World A) : M state A :=
  fun st =>
    let '(r, w) := m (world st) in
    (r, {| self := self st; world := w; trace := trace st |}).

(** A method call on the object [self.parser], which it mutates in place. *)
Definition on_parser {A} (m : M LightningArgumentParser A) : M state A :=
  p <- attr "parser" parser ;;
  let '(r, p') := m p in
  modify_self (set_parser p') ;;
  lift_result r.

(** An extension point: caller code that may change [self] and the world and
    may raise, but is no part of the template. *)
Definition hook : Type := M (LightningCLI * World) unit.

Definition run_hook (h : hook) : M state unit :=
  fun st =>
    let '(r, (c, w)) := h (self st, world st) in
    (r, {| self := c; world := w; trace := trace st |}).

(** One step of the template, from its call to its return. *)
Definition in_step (s : step) (m : M state unit) : M state unit :=
  log (Enter s) ;; m ;; log (Leave s).

(** A sequence of calls, each one returning before the next is made; an
    exception in one of them leaves the sequence. *)
Fixpoint run_steps (calls : list (step * M state unit)) : M state unit :=
  match calls with
  | [] => ret tt
  | (s, m) :: rest => in_step s m ;; run_steps rest
  end.

(** The overridable extension points. *)
Record overrides := {
  add_arguments_to_parser : hook;
  before_parse_arguments : hook;
  before_instantiate_classes : hook;
  before_fit : hook;
  after_fit : hook
}.

(** The extension points of the base class: all of them are [pass]. *)
Definition base_overrides : overrides :=
  {| add_arguments_to_parser := ret tt;
     before_parse_arguments := ret tt;
     before_instantiate_classes := ret tt;
     before_fit := ret tt;
     after_fit := ret tt |}.

(** Operations on values that the methods below use. *)

(** [v[k]] *)
Definition subscript (v : pyval) (k : string) : result pyval :=
  match v with
  | VDict d =>
      match d !! k with
      | Some x => Ok x
      | None => Raise (KeyError k)
      end
  | _ => Raise (TypeError "object is not subscriptable")
  end.

(** [v.get(k, dflt)] *)
Definition get_or (v : pyval) (k : string) (dflt : pyval) : result pyval :=
  match v with
  | VDict d => Ok (default dflt (d !! k))
  | _ => Raise (AttributeError "get")
  end.

(** The value [v] used as a mapping, in a keyword-argument splat or as the
    argument of [dict.update]. *)
Definition as_mapping (v : pyval) : result (gmap string pyval) :=
  match v with
  | VDict d => Ok d
  | _ => Raise (TypeError "argument must be a mapping")
  end.

(** ** The methods of [LightningCLI] *)

Section Pipeline.
(** The collaborators that are outside the module: the base trainer class,
    the naming of environment variables, the expansion of subclass
    selections by the parser, and the run operation of a trainer. *)
Variable Trainer : class.
Variable env_var_name : string -> string -> string.
Variable instantiate_subclasses : LightningArgumentParser -> pyval -> result pyval.
Variable trainer_fit : pyval -> gmap string pyval -> M World pyval.

(** The extension points as the caller overrides them. *)
Variable ov : overrides.

(** [init_parser] *)
Definition init_parser (description : string)
    (default_config_files : option (list string)) (parse_env : bool) : M state unit :=
  modify_self (set_parser
    (LightningArgumentParser_init None description default_config_files parse_env "PL")).

(** [add_core_arguments_to_parser] *)
Definition add_core_arguments_to_parser : M state unit :=
  c <- get_self ;;
  on_parser (add_trainer_args Trainer (Some (trainer_class c)) (Some "trainer")) ;;
  c <- get_self ;;
  on_parser (add_module_args (model_class c) (Some "model")) ;;
  c <- get_self ;;
  match datamodule_class c with
  | Some dc => on_parser (add_datamodule_args dc (Some "data")) ;; ret tt
  | None => ret tt
  end.

(** [parse_arguments] *)
Definition parse_arguments : M state unit :=
  p <- attr "parser" parser ;;
  cfg <- in_world (parse_args env_var_name p) ;;
  modify_self (set_config cfg).

(** [instantiate_model] *)
Definition instantiate_model : M state unit :=
  ci <- attr "config_init" config_init ;;
  kw <- lift_result (get_or ci "model" (VDict ∅)) ;;
  kw <- lift_result (as_mapping kw) ;;
  c <- get_self ;;
  m <- lift_result (py_call (model_class c) kw) ;;
  modify_self (set_model m).

(** [prepare_fit_kwargs] *)
Definition prepare_fit_kwargs : M state unit :=
  m <- attr "model" model ;;
  modify_self (set_fit_kwargs {[ "model" := m ]}) ;;
  c <- get_self ;;
  match datamodule_class c with
  | Some dc =>
      ci <- attr "config_init" config_init ;;
      kw <- lift_result (get_or ci "data" (VDict ∅)) ;;
      kw <- lift_result (as_mapping kw) ;;
      dm <- lift_result (py_call dc kw) ;;
      fk <- attr "fit_kwargs" fit_kwargs ;;
      modify_self (set_fit_kwargs (<["datamodule" := dm]> fk))
  | None => ret tt
  end.

(** [instantiate_trainer].  The in-place [append] on the list stored under
    ['callbacks'] is rendered by replacing that entry of [trainer_kwargs];
    the method call [.append] is looked up on the stored value before its
    argument is evaluated. *)
Definition instantiate_trainer : M state unit :=
  ci <- attr "config_init" config_init ;;
  t <- lift_result (subscript ci "trainer") ;;
  t <- lift_result (as_mapping t) ;;
  modify_self (set_trainer_kwargs (λ kw, dict_update kw t)) ;;
  c <- get_self ;;
  (if is_None (dict_get (trainer_kwargs c) "callbacks")
   then modify_self (set_trainer_kwargs <["callbacks" := VList []]>)
   else ret tt) ;;
  c <- get_self ;;
  match save_config_callback c with
  | Some scb =>
      match dict_get (trainer_kwargs c) "callbacks" with
      | VList l =>
          p <- attr "parser" parser ;;
          cfg <- attr "config" config ;;
          cb <- lift_result (cb_new scb p cfg) ;;
          modify_self (set_trainer_kwargs <["callbacks" := VList (l ++ [cb])]>)
      | _ => raise (AttributeError "append")
      end
  | None => ret tt
  end ;;
  c <- get_self ;;
  tr <- lift_result (py_call (trainer_class c) (trainer_kwargs c)) ;;
  modify_self (set_trainer tr).

(** [instantiate_classes] *)
Definition instantiate_classes : M state unit :=
  p <- attr "parser" parser ;;
  cfg <- attr "config" config ;;
  ci <- lift_result (instantiate_subclasses p cfg) ;;
  modify_self (set_config_init ci) ;;
  instantiate_model ;;
  prepare_fit_kwargs ;;
  instantiate_trainer.

(** [fit] *)
Definition fit : M state unit :=
  tr <- attr "trainer" trainer ;;
  fk <- attr "fit_kwargs" fit_kwargs ;;
  r <- in_world (trainer_fit tr fk) ;;
  modify_self (set_fit_result r).

(** The call of an extension point that receives [self.parser]. *)
Definition call_with_parser (h : hook) : M state unit :=
  attr "parser" parser ;; run_hook h.

(** The ten calls that make the body of [__init__], after the attribute
    assignments, in the order of the source. *)
Definition template (description : string)
    (default_config_files : option (list string)) (parse_env : bool)
  : list (step * M state unit) :=
  [ (InitParser, init_parser description default_config_files parse_env);
    (AddArgumentsToParser, call_with_parser (add_arguments_to_parser ov));
    (AddCoreArgumentsToParser, add_core_arguments_to_parser);
    (BeforeParseArguments, call_with_parser (before_parse_arguments ov));
    (ParseArguments, parse_arguments);
    (BeforeInstantiateClasses, run_hook (before_instantiate_classes ov));
    (InstantiateClasses, instantiate_classes);
    (BeforeFit, run_hook (before_fit ov));
    (Fit, fit);
    (AfterFit, run_hook (after_fit ov)) ].

Definition pipeline (description : string)
    (default_config_files : option (list string)) (parse_env : bool) : M state unit :=
  run_steps (template description default_config_files parse_env).

(** The object as the first five assignments of [__init__] leave it. *)
Definition new_cli (model_class : class) (datamodule_class : option class)
    (save_config_callback : option callback_class) (trainer_class : class)
    (kwargs : gmap string pyval) : LightningCLI :=
  {| model_class := model_class;
     datamodule_class := datamodule_class;
     save_config_callback := save_config_callback;
     trainer_class := trainer_class;
     trainer_kwargs := kwargs;
     parser := None; config := None; config_init := None; model := None;
     fit_kwargs := None; trainer := None; fit_result := None |}.

(** The state in which the body of [__init__] starts.  A keyword that the
    caller may leave out is an [option], [None] standing for "not passed";
    [save_config_callback] can also be passed as Python's [None], which is
    [Some None] here. *)
Definition initial_state
    (model_class : class)
    (datamodule_class : option class)
    (save_config_callback : option (option callback_class))
    (trainer_class : option class)
    (kwargs : gmap string pyval)
    (w : World) : state :=
  {| self := new_cli model_class datamodule_class
               (default (Some SaveConfigCallback) save_config_callback)
               (default Trainer trainer_class) kwargs;
     world := w;
     trace := [] |}.

(** [LightningCLI.__init__] *)
Definition LightningCLI_init
    (model_class : class)
    (datamodule_class : option class)
    (save_config_callback : option (option callback_class))
    (trainer_class : option class)
    (description : option string)
    (default_config_files : option (list string))
    (parse_env : option bool)
    (kwargs : gmap string pyval)
    (w : World) : result unit * state :=
  pipeline
    (default "pytorch-lightning trainer command line tool" description)
    default_config_files
    (default false parse_env)
    (initial_state model_class datamodule_class save_config_callback
       trainer_class kwargs w).

End Pipeline.

(** ** A concrete set of collaborators, for running the model *)

Module Example.

(** [PL_MODEL_X] from ["PL"] and ["model.x"]. *)
Definition upper (c : ascii) : ascii :=
  let n := nat_of_ascii c in
  if bool_decide (97 ≤ n ≤ 122) then ascii_of_nat (n - 32)
  else if bool_decide (c = "."%char) then "_"%char
  else c.

Fixpoint map_string (f : ascii -> ascii) (s : string) : string :=
  match s with
  | EmptyString => EmptyString
  | String c r => String (f c) (map_string f r)
  end.

Definition env_var_name (prefix dest : string) : string :=
  prefix +:+ "_" +:+ map_string upper dest.

Definition logger : pyval :=
  VInstance "TensorBoardLogger" {[ "log_dir" := VStr "lightning_logs/version_0" ]}.

(** A trainer class with three constructor parameters.  Its instances keep
    the bound arguments and own a logger. *)
Definition Trainer : class :=
  {| cls_name := "Trainer";
     cls_bases := ["object"];
     cls_signature :=
       [ {| param_name := "self"; param_default := None |};
         {| param_name := "callbacks"; param_default := Some VNone |};
         {| param_name := "max_epochs"; param_default := Some (VInt 1000) |} ];
     cls_var_keyword := false;
     cls_body := λ kw, Ok (VInstance "Trainer" (<["logger" := logger]> kw)) |}.

(** A model class whose constructor requires [lr] and rejects a negative one. *)
Definition MyModel : class :=
  {| cls_name := "MyModel";
     cls_bases := ["LightningModule"; "object"];
     cls_signature :=
       [ {| param_name := "self"; param_default := None |};
         {| param_name := "lr"; param_default := None |};
         {| param_name := "x"; param_default := Some VNone |} ];
     cls_var_keyword := false;
     cls_body := λ kw,
       match kw !! "lr" with
       | Some (VInt z) =>
           if bool_decide (z < 0)%Z then Raise (Exception "lr must not be negative")
           else Ok (VInstance "MyModel" kw)
       | _ => Ok (VInstance "MyModel" kw)
       end |}.

Definition MyData : class :=
  {| cls_name := "MyData";
     cls_bases := ["LightningDataModule"; "object"];
     cls_signature :=
       [ {| param_name := "self"; param_default := None |};
         {| param_name := "batch_size"; param_default := Some (VInt 32) |} ];
     cls_var_keyword := false;
     cls_body := λ kw, Ok (VInstance "MyData" kw) |}.

(** A class that is no [LightningModule]. *)
Definition NotAModule : class :=
  {| cls_name := "NotAModule";
     cls_bases := ["object"];
     cls_signature :=
       [ {| param_name := "self"; param_default := None |};
         {| param_name := "width"; param_default := Some (VInt 3) |} ];
     cls_var_keyword := false;
     cls_body := λ kw, Ok (VInstance "NotAModule" kw) |}.

(** A parser that finds nothing to expand. *)
Definition instantiate_subclasses (p : LightningArgumentParser) (cfg : pyval)
  : result pyval := Ok cfg.

(** A parser that expands the selection stored under [model.x]. *)
Definition expand_model_x (p : LightningArgumentParser) (cfg : pyval)
  : result pyval :=
  match cfg with
  | VDict d =>
      match d !! "model" with
      | Some (VDict m) =>
          Ok (VDict (<["model" := VDict (<["x" := VInstance "Expanded" ∅]> m)]> d))
      | _ => Ok cfg
      end
  | _ => Ok cfg
  end.

(** A run operation that does nothing but return. *)
Definition trainer_fit (tr : pyval) (kw : gmap string pyval) : M World pyval :=
  ret VNone.

Definition early_stopping : pyval := VInstance "EarlyStopping" ∅.

Definition empty_world : World :=
  {| w_cli := ∅; w_environ := ∅; w_config := ∅; w_files := ∅ |}.

(** [--model.lr=1 --model.x=5] with [PL_MODEL_X=9] in the environment. *)
Definition world_1 : World :=
  {| w_cli := {[ "model.lr" := VInt 1; "model.x" := VInt 5 ]};
     w_environ := {[ "PL_MODEL_X" := VInt 9 ]};
     w_config := ∅;
     w_files := ∅ |}.



(** The parser as the pipeline builds it for [MyModel], with environment
    parsing enabled. *)
Definition parser_1 : LightningArgumentParser :=
  {| description := "pytorch-lightning trainer command line tool";
     default_config_files := None;
     default_env := true;
     env_prefix := "PL";
     parse_as_dict := true;
     options :=
       [ {| opt_group := None; opt_name := "config";
            opt_default := Some VNone; opt_config_file := true |};
         {| opt_group := Some "trainer"; opt_name := "callbacks";
            opt_default := Some VNone; opt_config_file := false |};
         {| opt_group := Some "trainer"; opt_name := "max_epochs";
            opt_default := Some (VInt 1000); opt_config_file := false |};
         {| opt_group := Some "model"; opt_name := "lr";
            opt_default := None; opt_config_file := false |};
         {| opt_group := Some "model"; opt_name := "x";
            opt_default := Some VNone; opt_config_file := false |} ] |}.

(** A resolved tree, with a given value for [trainer.callbacks]. *)
Definition trainer_config (callbacks : pyval) : gmap string pyval :=
  {[ "callbacks" := callbacks; "max_epochs" := VInt 3 ]}.

Definition config_1 (callbacks : pyval) : pyval :=
  VDict {[ "config" := VNone;
           "trainer" := VDict (trainer_config callbacks);
           "model" := VDict {[ "lr" := VInt 1; "x" := VNone ]} ]}.

(** The object on entry to [instantiate_trainer]. *)
Definition state_1 (scb : option callback_class) (kwargs : gmap string pyval)
    (callbacks : pyval) : state :=
  {| self :=
       {| model_class := MyModel;
          datamodule_class := None;
          save_config_callback := scb;
          trainer_class := Trainer;
          trainer_kwargs := kwargs;
          parser := Some parser_1;
          config := Some (config_1 callbacks);
          config_init := Some (config_1 callbacks);
          model := Some (VInstance "MyModel" {[ "lr" := VInt 1; "x" := VNone ]});
          fit_kwargs := Some {[ "model" := VInstance "MyModel" {[ "lr" := VInt 1; "x" := VNone ]} ]};
          trainer := None;
          fit_result := None |};
     world := empty_world;
     trace := [] |}.

(** The object on entry to [instantiate_classes], after a parse. *)
Definition state_2 : state :=
  {| self :=
       {| model_class := MyModel;
          datamodule_class := None;
          save_config_callback := Some SaveConfigCallback;
          trainer_class := Trainer;
          trainer_kwargs := ∅;
          parser := Some parser_1;
          config := Some (config_1 VNone);
          config_init := None;
          model := None;
          fit_kwargs := None;
          trainer := None;
          fit_result := None |};
     world := empty_world;
     trace := [] |}.

(** The object on entry to [add_core_arguments_to_parser]. *)
Definition state_3 : state :=
  {| self := set_parser (LightningArgumentParser_init None "tool" None false "PL")
               (new_cli MyModel (Some MyData) (Some SaveConfigCallback) Trainer ∅);
     world := empty_world;
     trace := [] |}.

(** An invocation with every default, for a given command line and given
    keyword arguments. *)
Definition invoke (kwargs : gmap string pyval) (w : World) : result unit * state :=
  LightningCLI_init Trainer env_var_name instantiate_subclasses trainer_fit
    base_overrides MyModel None None None None None None kwargs w.

(** A run operation that raises. *)
Definition failing_fit (tr : pyval) (kw : gmap string pyval) : M World pyval :=
  raise (Exception "CUDA out of memory").

(** A trainer that was built with [logger=False]: it has no logger. *)
Definition trainer_without_logger : pyval :=
  VInstance "Trainer" {[ "logger" := VNone ]}.

End Example.

(** ** Vocabulary of the statements *)

(** The names of the options a parser holds, in registration order. *)
Definition registered (p : LightningArgumentParser) : list string :=
  opt_dest <$> options p.

(** [<nested_key>.<parameter_name>] for each constructor parameter of [c]
    other than [self]. *)
Definition qualified (nested_key : string) (c : class) : list string :=
  (λ n, nested_key +:+ "." +:+ n)
    <$> filter (λ n, n ≠ "self") (param_name <$> cls_signature c).

(** Where the parse operation stores the value of an option in the tree. *)
Definition path_of (o : option_spec pyval) : list string :=
  match opt_group o with
  | Some g => [g; opt_name o]
  | None => [opt_name o]
  end.

(** Registering [o'] after [o] leaves the place of [o] in the tree alone:
    the two are not stored at the same place, and neither is stored where
    the other's nested key is. *)
Definition independent (o o' : option_spec pyval) : bool :=
  match opt_group o, opt_group o' with
  | Some g, Some g' => bool_decide (g ≠ g' ∨ opt_name o ≠ opt_name o')
  | Some g, None => bool_decide (opt_name o' ≠ g)
  | None, Some g' => bool_decide (opt_name o ≠ g')
  | None, None => bool_decide (opt_name o ≠ opt_name o')
  end.

(** A value for ['callbacks'] of the type the trainer declares: absent,
    [None] or a list. *)
Definition optional_list (v : option pyval) : bool :=
  match v with
  | None | Some VNone | Some (VList _) => true
  | Some _ => false
  end.

(** The list a ['callbacks'] value stands for: none for an absent one or
    for [None]. *)
Definition list_of (v : option pyval) : list pyval :=
  match v with
  | Some (VList l) => l
  | _ => []
  end.

(** The attributes of [self] that the instantiation of the model and of
    the data module leaves alone. *)
Definition same_inputs (c c' : LightningCLI) : Prop :=
  model_class c' = model_class c
  ∧ datamodule_class c' = datamodule_class c
  ∧ save_config_callback c' = save_config_callback c
  ∧ trainer_class c' = trainer_class c
  ∧ trainer_kwargs c' = trainer_kwargs c
  ∧ parser c' = parser c
  ∧ config c' = config c
  ∧ config_init c' = config_init c.

(** The ten steps in the order of the specification. *)
Definition all_steps : list step :=
  [ InitParser; AddArgumentsToParser; AddCoreArgumentsToParser;
    BeforeParseArguments; ParseArguments; BeforeInstantiateClasses;
    InstantiateClasses; BeforeFit; Fit; AfterFit ].

(** The trace of steps that were entered and left, one after the other. *)
Definition events (ss : list step) : list event :=
  ss ≫= λ s, [Enter s; Leave s].

(** A computation that writes nothing to the trace. *)
Definition keeps_trace {A} (m : M state A) : Prop :=
  ∀ st, trace (m st).2 = trace st.

(** The state with [self] replaced, the world and the trace kept. *)
Definition with_self (c : LightningCLI) (st : state) : state :=
  {| self := c; world := world st; trace := trace st |}.

(** [trainer.logger.log_dir], as [on_train_start] reads it. *)
Definition log_dir_of (trainer : pyval) : result pyval :=
  match getattr trainer "logger" with
  | Ok logger => getattr logger "log_dir"
  | Raise e => Raise e
  end.

(** * Properties *)

(** ** The monad *)

Lemma bind_Ok {S A B} (m : M S A) (k : A -> M S B) s a s' :
  m s = (Ok a, s') -> bind m k s = k a s'.
Proof. unfold bind. by intros ->. Qed.

Lemma bind_Raise {S A B} (m : M S A) (k : A -> M S B) s e s' :
  m s = (Raise e, s') -> bind m k s = (Raise e, s').
Proof. unfold bind. by intros ->. Qed.

Lemma bind_inv_Ok {S A B} (m : M S A) (k : A -> M S B) s b s2 :
  bind m k s = (Ok b, s2) -> ∃ a s1, m s = (Ok a, s1) ∧ k a s1 = (Ok b, s2).
Proof.
  unfold bind. destruct (m s) as [[a|e] s1]; intros H.
  - by exists a, s1.
  - discriminate.
Qed.

(** ** The argument registrar *)

Lemma filter_fmap_param (P : string -> Prop) `{∀ n, Decision (P n)} (ps : list param) :
  param_name <$> filter (λ p, P (param_name p)) ps = filter P (param_name <$> ps).
Proof.
  induction ps as [|q ps IH]; [done|].
  rewrite fmap_cons, !filter_cons. destruct (decide (P (param_name q))).
  - by rewrite fmap_cons, IH.
  - done.
Qed.

Lemma class_option_names (k : string) (c : class) :
  opt_dest <$> (class_option k <$> init_params c) = qualified k c.
Proof.
  unfold qualified, init_params.
  rewrite <- (filter_fmap_param (λ n, n ≠ "self")).
  rewrite <- !list_fmap_compose. done.
Qed.

Lemma add_class_arguments_registers (c : class) (k : string) (p : LightningArgumentParser) :
  (add_class_arguments c k p).1 = Ok (qualified k c) ∧
  registered (add_class_arguments c k p).2 = registered p ++ qualified k c.
Proof.
  unfold add_class_arguments, registered. simpl.
  rewrite fmap_app, class_option_names. done.
Qed.

Lemma qualified_module_not_model (c c' : class) (n : string) :
  n ∈ qualified "module" c -> n ∉ qualified "model" c'.
Proof.
  unfold qualified. intros Hn Hn'.
  apply list_elem_of_fmap in Hn as (a & -> & _).
  apply list_elem_of_fmap in Hn' as (b & Hb & _).
  simpl in Hb. discriminate.
Qed.

(** C3.  Each of the three registration operations checks the class against
    its base capability first: for a class that is no subtype it raises the
    assertion error and leaves the parser as it was; for a subtype it adds,
    after the options already there, one option [<nested_key>.<parameter>]
    per constructor parameter other than [self]. *)
Theorem registrar_checks_capability
    (Trainer c : class) (key : option string) (p : LightningArgumentParser) :
  (if issubclass c (cls_name Trainer)
   then (add_trainer_args Trainer (Some c) key p).1 = Ok (qualified (default "trainer" key) c)
        ∧ registered (add_trainer_args Trainer (Some c) key p).2
          = registered p ++ qualified (default "trainer" key) c
   else add_trainer_args Trainer (Some c) key p = (Raise AssertionError, p))
  ∧
  (if issubclass c "LightningModule"
   then (add_module_args c key p).1 = Ok (qualified (default "module" key) c)
        ∧ registered (add_module_args c key p).2
          = registered p ++ qualified (default "module" key) c
   else add_module_args c key p = (Raise AssertionError, p))
  ∧
  (if issubclass c "LightningDataModule"
   then (add_datamodule_args c key p).1 = Ok (qualified (default "data" key) c)
        ∧ registered (add_datamodule_args c key p).2
          = registered p ++ qualified (default "data" key) c
   else add_datamodule_args c key p = (Raise AssertionError, p)).
Proof.
  unfold add_trainer_args, add_module_args, add_datamodule_args, py_assert, bind.
  change (default Trainer (Some c)) with c.
  repeat split.
  all: match goal with |- context [issubclass ?x ?b] => destruct (issubclass x b) end.
  all: try done.
  all: apply add_class_arguments_registers.
Qed.

Lemma checked_registration (c : class) (base k : string) (p : LightningArgumentParser) :
  issubclass c base = true ->
  bind (py_assert (issubclass c base)) (λ _, add_class_arguments c k) p
  = (Ok (qualified k c),
     set_options (options p ++ (class_option k <$> init_params c)) p).
Proof.
  intros Hsub. unfold bind, py_assert. rewrite Hsub. simpl.
  unfold add_class_arguments. by rewrite class_option_names.
Qed.

Lemma registered_set_options (p : LightningArgumentParser) (k : string) (c : class) :
  registered (set_options (options p ++ (class_option k <$> init_params c)) p)
  = registered p ++ qualified k c.
Proof. unfold registered. simpl. by rewrite fmap_app, class_option_names. Qed.

Lemma on_parser_run {A} (m : M LightningArgumentParser A) st p r p' :
  parser (self st) = Some p ->
  m p = (r, p') ->
  on_parser m st
  = (r, {| self := set_parser p' (self st); world := world st; trace := trace st |}).
Proof.
  intros Hp Hm. unfold on_parser, attr, get_self, bind, ret, modify_self, modify.
  simpl. rewrite Hp, Hm. done.
Qed.

(** C10.  Without an explicit nested key the module registration puts the
    constructor parameters under ['module'], and none of these names is a
    name under ['model']; the pipeline gets the ['model'] names because
    [add_core_arguments_to_parser] passes the key ['model'] itself (as it
    passes ['trainer'] and ['data']). *)
Theorem module_args_default_key
    (Trainer c : class) (p : LightningArgumentParser) (st : state) :
  issubclass c "LightningModule" = true ->
  parser (self st) = Some p ->
  model_class (self st) = c ->
  issubclass (trainer_class (self st)) (cls_name Trainer) = true ->
  (∀ dc, datamodule_class (self st) = Some dc ->
         issubclass dc "LightningDataModule" = true) ->
  (add_module_args c None p).1 = Ok (qualified "module" c)
  ∧ registered (add_module_args c None p).2 = registered p ++ qualified "module" c
  ∧ (∀ n, n ∈ qualified "module" c -> n ∉ qualified "model" c)
  ∧ ∃ st' p',
      add_core_arguments_to_parser Trainer st = (Ok tt, st')
      ∧ parser (self st') = Some p'
      ∧ registered p'
        = registered p
          ++ qualified "trainer" (trainer_class (self st))
          ++ qualified "model" c
          ++ from_option (qualified "data") [] (datamodule_class (self st)).
Proof.
  intros Hc Hp Hm Ht Hd.
  split; [|split; [|split]].
  - unfold add_module_args. cbn [default from_option id].
    by rewrite checked_registration.
  - unfold add_module_args. cbn [default from_option id].
    rewrite checked_registration by done. apply registered_set_options.
  - intros n. apply qualified_module_not_model.
  - subst c. unfold add_core_arguments_to_parser.
    rewrite (bind_Ok _ _ st (self st) st) by done.
    erewrite bind_Ok; cycle 1.
    { eapply on_parser_run; [exact Hp|].
      unfold add_trainer_args. cbn [default from_option id].
      by apply checked_registration. }
    set (st1 := {| self := _ |}).
    rewrite (bind_Ok _ _ st1 (self st1) st1) by done.
    erewrite bind_Ok; cycle 1.
    { eapply on_parser_run; [done|].
      unfold add_module_args. cbn [default from_option id].
      apply checked_registration. subst st1. simpl. exact Hc. }
    set (st2 := {| self := _ |}).
    rewrite (bind_Ok _ _ st2 (self st2) st2) by done.
    subst st2 st1. cbn [self datamodule_class set_parser].
    destruct (datamodule_class (self st)) as [dc|] eqn:Hdc.
    + erewrite bind_Ok; cycle 1.
      { eapply on_parser_run; [done|].
        unfold add_datamodule_args. cbn [default from_option id].
        apply checked_registration. by apply Hd. }
      eexists _, _. split; [done|]. split; [done|].
      unfold registered. simpl.
      by rewrite !fmap_app, !class_option_names, <- !app_assoc.
    + eexists _, _. split; [done|]. split; [done|].
      unfold registered. simpl.
      by rewrite !fmap_app, !class_option_names, app_nil_r, <- !app_assoc.
Qed.

(** ** The config capture callback *)

Lemma os_path_join_plain (d : string) :
  d ≠ "" -> ends_with_slash d = false ->
  os_path_join d "config.yaml" = d +:+ "/config.yaml".
Proof.
  intros Hd Hs. unfold os_path_join. cbn [starts_with_slash].
  rewrite bool_decide_eq_false_2 by (intros [=]).
  rewrite (bool_decide_eq_false_2 _ Hd), Hs. done.
Qed.

(** With [skip_none=True] the save operation would lose a key: the [False]
    that [on_train_start] passes matters. *)
Lemma save_skip_none_drops_key (p : LightningArgumentParser) (w : World) :
  let cfg := VDict {[ "seed" := VNone ]} in
  w_files (save p cfg "config.yaml" true w).2 !! "config.yaml" = Some (VDict ∅)
  ∧ w_files (save p cfg "config.yaml" false w).2 !! "config.yaml" = Some cfg.
Proof.
  unfold save, modify. simpl. rewrite !lookup_insert_eq. split; [|done].
  by rewrite omap_singleton_None.
Qed.

(** C4.  Invoked with a trainer whose logger has a log directory [d], the
    run-start hook returns normally after one [save] of its configuration
    tree, with [skip_none=False], to the path that joins [d] and
    [config.yaml], which is [d/config.yaml] for a directory name that is not
    empty and has no trailing slash.  The file then holds every key of the
    tree, at every level, with its value, the keys whose value is [None]
    included. *)
Theorem on_train_start_saves_whole_tree
    (p : LightningArgumentParser) (cfg trainer pl_module : pyval)
    (tcls lcls : string) (tattrs lattrs : gmap string pyval)
    (d : string) (w : World) :
  trainer = VInstance tcls tattrs ->
  tattrs !! "logger" = Some (VInstance lcls lattrs) ->
  lattrs !! "log_dir" = Some (VStr d) ->
  on_train_start (VSaveConfigCallback p cfg) trainer pl_module w
  = save p cfg (os_path_join d "config.yaml") false w
  ∧ (∃ w' written,
       on_train_start (VSaveConfigCallback p cfg) trainer pl_module w = (Ok tt, w')
       ∧ w_files w' !! os_path_join d "config.yaml" = Some written
       ∧ (∀ path v, lookup_path path cfg = Some v -> lookup_path path written = Some v)
       ∧ (∀ path, lookup_path path cfg = Some VNone -> lookup_path path written = Some VNone))
  ∧ (d ≠ "" -> ends_with_slash d = false ->
     os_path_join d "config.yaml" = d +:+ "/config.yaml").
Proof.
  intros -> Hlogger Hdir.
  assert (Hrun : on_train_start (VSaveConfigCallback p cfg) (VInstance tcls tattrs)
                   pl_module w
                 = save p cfg (os_path_join d "config.yaml") false w).
  { unfold on_train_start, bind, lift_result, getattr.
    rewrite Hlogger. rewrite Hdir. done. }
  split; [exact Hrun|]. split; [|apply os_path_join_plain].
  rewrite Hrun. unfold save, modify. eexists _, cfg.
  split; [done|]. simpl. rewrite lookup_insert_eq. done.
Qed.

(** ** The parse operation *)

Lemma tree_insert_lookup (o : option_spec pyval) (v : pyval) (t : gmap string pyval) :
  lookup_path (path_of o) (VDict (tree_insert o v t)) = Some v.
Proof.
  unfold path_of, tree_insert. destruct (opt_group o) as [g|]; simpl.
  - rewrite lookup_insert_eq. simpl. by rewrite lookup_insert_eq.
  - by rewrite lookup_insert_eq.
Qed.

Lemma tree_insert_preserves (o o' : option_spec pyval) (v v' : pyval)
    (t : gmap string pyval) :
  independent o o' = true ->
  lookup_path (path_of o) (VDict t) = Some v ->
  lookup_path (path_of o) (VDict (tree_insert o' v' t)) = Some v.
Proof.
  unfold independent, path_of, tree_insert.
  destruct (opt_group o) as [g|], (opt_group o') as [g'|]; simpl;
    intros Hind%bool_decide_eq_true_1 Hv.
  - destruct (decide (g = g')) as [<-|Hg].
    + rewrite lookup_insert_eq. simpl.
      destruct (t !! g) as [[]|]; simpl in Hv; try discriminate.
      rewrite lookup_insert_ne; [done|]. intros Heq. destruct Hind; congruence.
    + rewrite lookup_insert_ne by done. done.
  - rewrite lookup_insert_ne by done. done.
  - rewrite lookup_insert_ne by done. done.
  - rewrite lookup_insert_ne by done. done.
Qed.

Section ParseFacts.
Variable env_var_name : string -> string -> string.
Variable p : LightningArgumentParser.
Variable w : World.

Lemma parse_options_preserves (o : option_spec pyval) (v : pyval)
    (os : list (option_spec pyval)) :
  forallb (independent o) os = true ->
  ∀ t t',
    lookup_path (path_of o) (VDict t) = Some v ->
    parse_options env_var_name p w os t = Ok t' ->
    lookup_path (path_of o) (VDict t') = Some v.
Proof.
  induction os as [|o' os IH]; simpl; intros Hind t t' Hv Hparse.
  - by injection Hparse as <-.
  - apply andb_prop in Hind as [Ho' Hos].
    destruct (resolve env_var_name p w o') as [v'|]; [|discriminate].
    eapply IH; [done| |exact Hparse].
    by apply tree_insert_preserves.
Qed.

Lemma parse_options_app (os1 os2 : list (option_spec pyval)) :
  ∀ t t',
    parse_options env_var_name p w (os1 ++ os2) t = Ok t' ->
    ∃ t1, parse_options env_var_name p w os1 t = Ok t1
          ∧ parse_options env_var_name p w os2 t1 = Ok t'.
Proof.
  induction os1 as [|o os1 IH]; simpl; intros t t' Hparse.
  - by exists t.
  - destruct (resolve env_var_name p w o) as [v|]; [|discriminate].
    by apply IH.
Qed.

Lemma parse_options_stores_resolved (os1 os2 : list (option_spec pyval))
    (o : option_spec pyval) (t t' : gmap string pyval) :
  forallb (independent o) os2 = true ->
  parse_options env_var_name p w (os1 ++ o :: os2) t = Ok t' ->
  lookup_path (path_of o) (VDict t') = resolve env_var_name p w o.
Proof.
  intros Hind Hparse.
  apply parse_options_app in Hparse as (t1 & _ & Hparse). simpl in Hparse.
  destruct (resolve env_var_name p w o) as [v|]; [|discriminate].
  eapply parse_options_preserves; [exact Hind| |exact Hparse].
  apply tree_insert_lookup.
Qed.

End ParseFacts.

(** C7.  For an option that is registered with the parser, and whose place
    in the tree no later registration takes, a successful parse stores the
    value that the resolution order gives: the command-line value if there is
    one, also when environment parsing is enabled and the environment holds
    a value for the option; then the value of the environment; then the one
    of the configuration file; then the default of the option. *)
Theorem parse_follows_priority
    (env_var_name : string -> string -> string)
    (p : LightningArgumentParser) (w w' : World)
    (os1 os2 : list (option_spec pyval)) (o : option_spec pyval) (cfg : pyval) :
  parse_as_dict p = true ->
  options p = os1 ++ o :: os2 ->
  forallb (independent o) os2 = true ->
  parse_args env_var_name p w = (Ok cfg, w') ->
  (∀ v v_env,
     default_env p = true ->
     w_cli w !! opt_dest o = Some v ->
     w_environ w !! env_var_name (env_prefix p) (opt_dest o) = Some v_env ->
     lookup_path (path_of o) cfg = Some v)
  ∧ (∀ v, from_cli w o = Some v -> lookup_path (path_of o) cfg = Some v)
  ∧ (∀ v, from_cli w o = None ->
          from_env env_var_name p w o = Some v ->
          lookup_path (path_of o) cfg = Some v)
  ∧ (∀ v, from_cli w o = None ->
          from_env env_var_name p w o = None ->
          from_config_file w o = Some v ->
          lookup_path (path_of o) cfg = Some v)
  ∧ (from_cli w o = None ->
     from_env env_var_name p w o = None ->
     from_config_file w o = None ->
     lookup_path (path_of o) cfg = opt_default o).
Proof.
  intros Hdict Hopts Hind Hparse.
  assert (Hcfg : lookup_path (path_of o) cfg = resolve env_var_name p w o).
  { unfold parse_args in Hparse. rewrite Hopts, Hdict in Hparse.
    destruct (parse_options _ _ _ _ _) as [t'|e] eqn:Ht'; [|discriminate].
    injection Hparse as <- _.
    by eapply parse_options_stores_resolved. }
  rewrite Hcfg. unfold resolve.
  repeat split.
  - intros v v_env _ Hcli _. unfold from_cli. by rewrite Hcli.
  - by intros v ->.
  - by intros v -> ->.
  - by intros v -> -> ->.
  - by intros -> -> ->.
Qed.

(** ** Instantiation of the trainer *)

Lemma attr_inv_Ok {A} (name : string) (proj : LightningCLI -> option A) st a st' :
  attr name proj st = (Ok a, st') -> proj (self st) = Some a ∧ st' = st.
Proof.
  unfold attr, bind, get_self, ret, raise.
  destruct (proj (self st)); intros [=]; by subst.
Qed.

Lemma attr_run {A} (name : string) (proj : LightningCLI -> option A) st a :
  proj (self st) = Some a -> attr name proj st = (Ok a, st).
Proof. intros H. unfold attr, bind, get_self, ret. by rewrite H. Qed.

Lemma lift_result_inv_Ok {S A} (r : result A) (s s' : S) a :
  lift_result r s = (Ok a, s') -> r = Ok a ∧ s' = s.
Proof. unfold lift_result. by intros [= -> ->]. Qed.

Lemma as_mapping_inv (v : pyval) (d : gmap string pyval) :
  as_mapping v = Ok d -> v = VDict d.
Proof. destruct v; simpl; intros [=]; by subst. Qed.

(** What a normal return of [instantiate_trainer] tells: the keyword
    arguments were built in three stages and the trainer was constructed
    from the last one. *)
Lemma instantiate_trainer_inv (st st' : state) :
  instantiate_trainer st = (Ok tt, st') ->
  ∃ ci t kw2 tr,
    config_init (self st) = Some ci
    ∧ subscript ci "trainer" = Ok (VDict t)
    ∧ (let kw0 := dict_update (trainer_kwargs (self st)) t in
       let kw1 := if is_None (dict_get kw0 "callbacks")
                  then <["callbacks" := VList []]> kw0 else kw0 in
       match save_config_callback (self st) with
       | None => kw2 = kw1
       | Some scb =>
           ∃ l p cfg cb,
             dict_get kw1 "callbacks" = VList l
             ∧ parser (self st) = Some p
             ∧ config (self st) = Some cfg
             ∧ cb_new scb p cfg = Ok cb
             ∧ kw2 = <["callbacks" := VList (l ++ [cb])]> kw1
       end)
    ∧ py_call (trainer_class (self st)) kw2 = Ok tr
    ∧ trainer_kwargs (self st') = kw2
    ∧ trainer (self st') = Some tr
    ∧ config (self st') = config (self st)
    ∧ world st' = world st
    ∧ trace st' = trace st.
Proof.
  unfold instantiate_trainer. intros H.
  apply bind_inv_Ok in H as (ci & s1 & [Hci ->]%attr_inv_Ok & H).
  apply bind_inv_Ok in H as (tv & s1 & [Htv ->]%lift_result_inv_Ok & H).
  apply bind_inv_Ok in H as (t & s1 & [Ht%as_mapping_inv ->]%lift_result_inv_Ok & H).
  subst tv.
  apply bind_inv_Ok in H as ([] & s1 & Hs1 & H).
  injection Hs1 as <-.
  apply bind_inv_Ok in H as (c1 & s1 & Hs1 & H).
  injection Hs1 as <- <-. cbn [self set_trainer_kwargs trainer_kwargs] in H.
  apply bind_inv_Ok in H as ([] & s2 & Hs2 & H).
  apply bind_inv_Ok in H as (c2 & s3 & Hs3 & H).
  injection Hs3 as <- <-.
  apply bind_inv_Ok in H as ([] & s4 & Hs4 & H).
  apply bind_inv_Ok in H as (c4 & s5 & Hs5 & H).
  injection Hs5 as <- <-.
  apply bind_inv_Ok in H as (tr & s6 & [Hcall ->]%lift_result_inv_Ok & H).
  injection H as <-.
  exists ci, t, (trainer_kwargs (self s4)), tr.
  split; [done|]. split; [done|].
  set (kw0 := dict_update (trainer_kwargs (self st)) t) in *.
  assert (Hs2' : trainer_kwargs (self s2)
                 = (if is_None (dict_get kw0 "callbacks")
                    then <["callbacks" := VList []]> kw0 else kw0)
                 ∧ save_config_callback (self s2) = save_config_callback (self st)
                 ∧ trainer_class (self s2) = trainer_class (self st)
                 ∧ parser (self s2) = parser (self st)
                 ∧ config (self s2) = config (self st)
                 ∧ world s2 = world st ∧ trace s2 = trace st).
  { destruct (is_None (dict_get kw0 "callbacks")); injection Hs2 as <-; done. }
  destruct Hs2' as (Hkw1 & Hscb & Htc & Hp & Hcfg & Hw & Htr).
  cbv zeta. rewrite <- Hkw1, <- Hscb.
  destruct (save_config_callback (self s2)) as [scb|].
  - destruct (dict_get (trainer_kwargs (self s2)) "callbacks") as [| | | |l| | |] eqn:Hl;
      try discriminate.
    apply bind_inv_Ok in Hs4 as (p & s & [Hp' ->]%attr_inv_Ok & Hs4).
    apply bind_inv_Ok in Hs4 as (cfg & s & [Hcfg' ->]%attr_inv_Ok & Hs4).
    apply bind_inv_Ok in Hs4 as (cb & s & [Hcb ->]%lift_result_inv_Ok & Hs4).
    injection Hs4 as <-. cbn [self set_trainer_kwargs trainer_kwargs] in *.
    split.
    { exists l, p, cfg, cb. repeat split; try done; congruence. }
    cbn. rewrite <- Htc. repeat split; try done; congruence.
  - injection Hs4 as <-. split; [done|].
    cbn. rewrite <- Htc. repeat split; try done; congruence.
Qed.

(** The ['callbacks'] entry after line 227-228, by cases on what the merge
    left there. *)
Lemma callbacks_after_default (kw0 : gmap string pyval) :
  let kw1 := if is_None (dict_get kw0 "callbacks")
             then <["callbacks" := VList []]> kw0 else kw0 in
  kw1 !! "callbacks"
  = Some (if is_None (dict_get kw0 "callbacks") then VList []
          else dict_get kw0 "callbacks")
  ∧ (∀ k, k ≠ "callbacks" -> kw1 !! k = kw0 !! k)
  ∧ (∀ l, dict_get kw1 "callbacks" = VList l ->
          l = list_of (kw0 !! "callbacks") ∧ kw1 !! "callbacks" = Some (VList l))
  ∧ (optional_list (kw0 !! "callbacks") = true ->
     kw1 !! "callbacks" = Some (VList (list_of (kw0 !! "callbacks")))).
Proof.
  unfold dict_get.
  destruct (kw0 !! "callbacks") as [v|] eqn:Hv; simpl.
  - destruct v; simpl; rewrite ?lookup_insert_eq, ?Hv; simpl.
    all: repeat split; try done.
    all: try (intros; by rewrite lookup_insert_ne).
    all: congruence.
  - rewrite lookup_insert_eq. simpl. repeat split; try done.
    all: try (intros; by rewrite lookup_insert_ne).
    all: congruence.
Qed.

(** The ['callbacks'] entry that a normal return of [instantiate_trainer]
    leaves in the keyword arguments. *)
Lemma callbacks_passed (st st' : state) (ci : pyval) (t : gmap string pyval) :
  config_init (self st) = Some ci ->
  subscript ci "trainer" = Ok (VDict t) ->
  instantiate_trainer st = (Ok tt, st') ->
  let supplied := dict_get (dict_update (trainer_kwargs (self st)) t) "callbacks" in
  match save_config_callback (self st) with
  | Some scb =>
      ∃ l p cfg cb,
        (if is_None supplied then VList [] else supplied) = VList l
        ∧ parser (self st) = Some p
        ∧ config (self st) = Some cfg
        ∧ cb_new scb p cfg = Ok cb
        ∧ trainer_kwargs (self st') !! "callbacks" = Some (VList (l ++ [cb]))
  | None =>
      trainer_kwargs (self st') !! "callbacks"
      = Some (if is_None supplied then VList [] else supplied)
  end.
Proof.
  intros Hci Ht Hrun.
  apply instantiate_trainer_inv in Hrun
    as (ci' & t' & kw2 & tr & Hci' & Ht' & Hkw & Hcall & Hkw2 & Htr & _).
  rewrite Hci in Hci'. injection Hci' as <-.
  rewrite Ht in Ht'. injection Ht' as <-.
  cbv zeta in Hkw. cbv zeta.
  set (kw0 := dict_update (trainer_kwargs (self st)) t) in *.
  destruct (callbacks_after_default kw0) as (Hcb1 & _ & Hl & _). cbv zeta in Hcb1, Hl.
  destruct (save_config_callback (self st)) as [scb|].
  - destruct Hkw as (l & p & cfg & cb & Hget & Hp & Hcfg & Hcb & ->).
    exists l, p, cfg, cb. rewrite Hkw2, lookup_insert_eq.
    repeat split; try done.
    apply Hl in Hget as [_ Hget]. rewrite Hcb1 in Hget. by injection Hget.
  - subst kw2. by rewrite Hkw2.
Qed.

(** [instantiate_trainer] does return when its inputs are as the pipeline
    leaves them and the two constructors accept their arguments. *)
Lemma instantiate_trainer_returns (st : state) (ci : pyval)
    (t : gmap string pyval) (p : LightningArgumentParser) (cfg : pyval) :
  config_init (self st) = Some ci ->
  subscript ci "trainer" = Ok (VDict t) ->
  optional_list (dict_update (trainer_kwargs (self st)) t !! "callbacks") = true ->
  parser (self st) = Some p ->
  config (self st) = Some cfg ->
  (∀ scb, save_config_callback (self st) = Some scb -> ∃ cb, cb_new scb p cfg = Ok cb) ->
  (∀ kw, ∃ tr, py_call (trainer_class (self st)) kw = Ok tr) ->
  ∃ st', instantiate_trainer st = (Ok tt, st').
Proof.
  intros Hci Ht Htyped Hp Hcfg Hnew Hcall.
  unfold instantiate_trainer.
  rewrite (bind_Ok _ _ st ci st) by (by apply attr_run).
  rewrite (bind_Ok _ _ st (VDict t) st) by (unfold lift_result; by rewrite Ht).
  rewrite (bind_Ok _ _ st t st) by done.
  erewrite bind_Ok by reflexivity.
  erewrite bind_Ok by reflexivity.
  cbn [self set_trainer_kwargs trainer_kwargs].
  set (kw0 := dict_update (trainer_kwargs (self st)) t) in *.
  destruct (callbacks_after_default kw0) as (_ & _ & _ & Hl).
  cbv zeta in Hl. specialize (Hl Htyped).
  set (kw1 := if is_None (dict_get kw0 "callbacks")
              then <["callbacks" := VList []]> kw0 else kw0) in *.
  set (st1 := {| self := set_trainer_kwargs (λ _, kw1) (self st);
                 world := world st; trace := trace st |}).
  erewrite (bind_Ok _ _ _ tt st1); cycle 1.
  { subst st1 kw1. destruct (is_None (dict_get kw0 "callbacks")); reflexivity. }
  erewrite bind_Ok by reflexivity.
  cbn [st1 self set_trainer_kwargs trainer_kwargs save_config_callback].
  destruct (save_config_callback (self st)) as [scb|] eqn:Hscb.
  - unfold dict_get at 1. rewrite Hl. cbn [default from_option id].
    destruct (Hnew scb eq_refl) as [cb Hcb].
    erewrite bind_Ok; cycle 1.
    { erewrite bind_Ok by (apply attr_run; exact Hp).
      erewrite bind_Ok by (apply attr_run; exact Hcfg).
      erewrite bind_Ok by (unfold lift_result; by rewrite Hcb).
      reflexivity. }
    erewrite bind_Ok by reflexivity.
    match goal with |- context [py_call ?c ?kw] =>
      destruct (Hcall kw) as [tr Htr]; cbn in Htr |- * end.
    unfold bind, lift_result. rewrite Htr. by eexists.
  - erewrite bind_Ok by reflexivity.
    erewrite bind_Ok by reflexivity.
    match goal with |- context [py_call ?c ?kw] =>
      destruct (Hcall kw) as [tr Htr]; cbn in Htr |- * end.
    unfold bind, lift_result. rewrite Htr. by eexists.
Qed.



(** C8, as the code has it.  For a key of the resolved [trainer]
    configuration other than ['callbacks'], the value passed to the
    constructor of the trainer is the resolved value, whatever the keyword
    arguments of the pipeline held for that key.  For ['callbacks'] the
    resolved value replaces the keyword's as well, but it is not passed as
    it is: [None] becomes the empty list, and an instance of the save-config
    class is appended when one is configured. *)
Theorem config_overrides_keywords (st st' : state) (ci : pyval)
    (t : gmap string pyval) (k : string) (v : pyval) :
  config_init (self st) = Some ci ->
  subscript ci "trainer" = Ok (VDict t) ->
  t !! k = Some v ->
  instantiate_trainer st = (Ok tt, st') ->
  (∃ tr, trainer (self st') = Some tr
         ∧ py_call (trainer_class (self st)) (trainer_kwargs (self st')) = Ok tr)
  ∧ (k ≠ "callbacks" -> trainer_kwargs (self st') !! k = Some v)
  ∧ (k = "callbacks" ->
     match save_config_callback (self st) with
     | None =>
         trainer_kwargs (self st') !! k = Some (if is_None v then VList [] else v)
     | Some scb =>
         ∃ l p cfg cb,
           (if is_None v then VList [] else v) = VList l
           ∧ parser (self st) = Some p
           ∧ config (self st) = Some cfg
           ∧ cb_new scb p cfg = Ok cb
           ∧ trainer_kwargs (self st') !! k = Some (VList (l ++ [cb]))
     end).
Proof.
  intros Hci Ht Hk Hrun.
  pose proof (callbacks_passed st st' ci t Hci Ht Hrun) as Hcb.
  apply instantiate_trainer_inv in Hrun
    as (ci' & t' & kw2 & tr & Hci' & Ht' & Hkw & Hcall & Hkw2 & Htr & _).
  rewrite Hci in Hci'. injection Hci' as <-.
  rewrite Ht in Ht'. injection Ht' as <-.
  cbv zeta in Hkw.
  set (kw0 := dict_update (trainer_kwargs (self st)) t) in *.
  assert (Hk0 : kw0 !! k = Some v).
  { subst kw0. unfold dict_update. by apply lookup_union_Some_l. }
  destruct (callbacks_after_default kw0) as (_ & Hother & _ & _). cbv zeta in Hother.
  split; [exists tr; by rewrite Hkw2|]. split.
  - intros Hne. rewrite Hkw2.
    destruct (save_config_callback (self st)) as [scb|].
    + destruct Hkw as (l & p & cfg & cb & _ & _ & _ & _ & ->).
      rewrite lookup_insert_ne by done. by rewrite Hother.
    + subst kw2. by rewrite Hother.
  - intros ->. cbv zeta in Hcb. unfold dict_get in Hcb. rewrite Hk0 in Hcb.
    exact Hcb.
Qed.

(** ** Instantiation of the classes *)

(** Inverting one [bind] of a computation that returned normally. *)
Ltac inv_bind H :=
  let a := fresh "a" in
  let s := fresh "s" in
  let H1 := fresh "Hstep" in
  apply bind_inv_Ok in H as (a & s & H1 & H);
  first [ apply attr_inv_Ok in H1 as [H1 ->]
        | apply lift_result_inv_Ok in H1 as [H1 ->]; try (injection H1 as <-)
        | idtac ].

Lemma instantiate_model_frame (st st' : state) :
  instantiate_model st = (Ok tt, st') ->
  same_inputs (self st) (self st') ∧ world st' = world st ∧ trace st' = trace st.
Proof.
  unfold instantiate_model. intros H.
  do 5 inv_bind H. injection H as <-. by repeat split.
Qed.

Lemma prepare_fit_kwargs_frame (st st' : state) :
  prepare_fit_kwargs st = (Ok tt, st') ->
  same_inputs (self st) (self st') ∧ world st' = world st ∧ trace st' = trace st.
Proof.
  unfold prepare_fit_kwargs. intros H.
  do 3 inv_bind H. cbn in H.
  destruct (datamodule_class (self st)) as [dc|].
  - do 5 inv_bind H. injection H as <-. by repeat split.
  - injection H as <-. by repeat split.
Qed.

Lemma instantiate_classes_inv
    (ivs : LightningArgumentParser -> pyval -> result pyval) (st st' : state) :
  instantiate_classes ivs st = (Ok tt, st') ->
  ∃ p cfg ci s3,
    parser (self st) = Some p
    ∧ config (self st) = Some cfg
    ∧ ivs p cfg = Ok ci
    ∧ instantiate_trainer s3 = (Ok tt, st')
    ∧ config_init (self s3) = Some ci
    ∧ parser (self s3) = Some p
    ∧ config (self s3) = Some cfg
    ∧ save_config_callback (self s3) = save_config_callback (self st)
    ∧ trainer_class (self s3) = trainer_class (self st)
    ∧ trainer_kwargs (self s3) = trainer_kwargs (self st).
Proof.
  unfold instantiate_classes. intros H.
  do 6 inv_bind H. destruct a2, a3.
  apply instantiate_model_frame in Hstep2 as (Hm & _).
  apply prepare_fit_kwargs_frame in Hstep3 as (Hf & _).
  destruct Hm as (_ & _ & Hm3 & Hm4 & Hm5 & Hm6 & Hm7 & Hm8).
  destruct Hf as (_ & _ & Hf3 & Hf4 & Hf5 & Hf6 & Hf7 & Hf8).
  cbn in Hm3, Hm4, Hm5, Hm6, Hm7, Hm8.
  exists a, a0, a1, s0. repeat split; try done; congruence.
Qed.

(** C5.  When the instantiation step returns normally with a save-config
    class configured, the last callback passed to the trainer is the
    instance that the class built from [self.parser] and from [self.config],
    the tree as the parse left it: not from the tree that the expansion of
    subclasses returned, whatever that is.  For the class of the module the
    instance has these two as its attributes.  [self.config] is still that
    tree afterwards. *)
Theorem save_config_gets_raw_config
    (ivs : LightningArgumentParser -> pyval -> result pyval)
    (st st' : state) (p : LightningArgumentParser) (cfg : pyval)
    (scb : callback_class) :
  parser (self st) = Some p ->
  config (self st) = Some cfg ->
  save_config_callback (self st) = Some scb ->
  instantiate_classes ivs st = (Ok tt, st') ->
  ∃ l cb tr,
    cb_new scb p cfg = Ok cb
    ∧ trainer_kwargs (self st') !! "callbacks" = Some (VList (l ++ [cb]))
    ∧ trainer (self st') = Some tr
    ∧ py_call (trainer_class (self st)) (trainer_kwargs (self st')) = Ok tr
    ∧ config (self st') = Some cfg
    ∧ (scb = SaveConfigCallback -> cb = VSaveConfigCallback p cfg).
Proof.
  intros Hp Hcfg Hscb Hrun.
  apply instantiate_classes_inv in Hrun
    as (p' & cfg' & ci & s3 & Hp' & Hcfg' & Hivs & Hrun & Hci3 & Hp3 & Hcfg3
        & Hscb3 & Htc3 & _).
  rewrite Hp in Hp'. injection Hp' as <-.
  rewrite Hcfg in Hcfg'. injection Hcfg' as <-.
  pose proof Hrun as Hinv.
  apply instantiate_trainer_inv in Hinv
    as (ci' & t & kw2 & tr & Hci' & Ht & _ & Hcall & Hkw2 & Htr & Hcfg' & _).
  pose proof (callbacks_passed s3 st' ci' t Hci' Ht Hrun) as Hcb.
  cbv zeta in Hcb. rewrite Hscb3, Hscb in Hcb.
  destruct Hcb as (l & p' & cfg' & cb & _ & Hp' & Hcfg'' & Hcb & Hpassed).
  rewrite Hp3 in Hp'. injection Hp' as <-.
  rewrite Hcfg3 in Hcfg''. injection Hcfg'' as <-.
  exists l, cb, tr. repeat split; try done.
  - rewrite <- Htc3. by rewrite Hkw2.
  - by rewrite Hcfg'.
  - intros ->. simpl in Hcb. by injection Hcb.
Qed.

(** ** The order of the steps *)

Lemma kt_ret {A} (a : A) : keeps_trace (ret a).
Proof. done. Qed.

Lemma kt_raise {A} (e : error) : keeps_trace (@raise state A e).
Proof. done. Qed.

Lemma kt_lift_result {A} (r : result A) : keeps_trace (lift_result r).
Proof. done. Qed.

Lemma kt_get_self : keeps_trace get_self.
Proof. done. Qed.

Lemma kt_modify_self (f : LightningCLI -> LightningCLI) : keeps_trace (modify_self f).
Proof. done. Qed.

Lemma kt_bind {A B} (m : M state A) (k : A -> M state B) :
  keeps_trace m -> (∀ a, keeps_trace (k a)) -> keeps_trace (bind m k).
Proof.
  intros Hm Hk st. unfold bind. specialize (Hm st).
  destruct (m st) as [[a|e] s1]; simpl in *; [|done].
  by rewrite Hk.
Qed.

Lemma kt_attr {A} (name : string) (proj : LightningCLI -> option A) :
  keeps_trace (attr name proj).
Proof.
  unfold attr. apply kt_bind; [apply kt_get_self|].
  intros c. destruct (proj c); [apply kt_ret|apply kt_raise].
Qed.

Lemma kt_in_world {A} (m : M World A) : keeps_trace (in_world m).
Proof. intros st. unfold in_world. by destruct (m (world st)). Qed.

Lemma kt_run_hook (h : hook) : keeps_trace (run_hook h).
Proof. intros st. unfold run_hook. by destruct (h (self st, world st)) as [r [c w]]. Qed.

Lemma kt_on_parser {A} (m : M LightningArgumentParser A) : keeps_trace (on_parser m).
Proof.
  unfold on_parser. apply kt_bind; [apply kt_attr|].
  intros p. destruct (m p) as [r p'].
  apply kt_bind; [apply kt_modify_self|]. intros _. apply kt_lift_result.
Qed.

Create HintDb trace.
#[local] Hint Resolve kt_ret kt_raise kt_lift_result kt_get_self kt_modify_self
  kt_attr kt_in_world kt_run_hook kt_on_parser : trace.

(** Splitting a computation along its binds and its case distinctions. *)
Ltac keeps_trace_tac :=
  repeat first
    [ progress eauto with trace
    | apply kt_bind; [|intros ?]
    | match goal with
      | |- keeps_trace (match ?x with _ => _ end) => destruct x
      end ].

Section TraceFacts.
Variable Trainer : class.
Variable env_var_name : string -> string -> string.
Variable instantiate_subclasses : LightningArgumentParser -> pyval -> result pyval.
Variable trainer_fit : pyval -> gmap string pyval -> M World pyval.
Variable ov : overrides.

Lemma kt_init_parser d f e : keeps_trace (init_parser d f e).
Proof. unfold init_parser. keeps_trace_tac. Qed.

Lemma kt_call_with_parser (h : hook) : keeps_trace (call_with_parser h).
Proof. unfold call_with_parser. keeps_trace_tac. Qed.

Lemma kt_add_core_arguments_to_parser :
  keeps_trace (add_core_arguments_to_parser Trainer).
Proof. unfold add_core_arguments_to_parser. keeps_trace_tac. Qed.

Lemma kt_parse_arguments : keeps_trace (parse_arguments env_var_name).
Proof. unfold parse_arguments. keeps_trace_tac. Qed.

Lemma kt_instantiate_model : keeps_trace instantiate_model.
Proof. unfold instantiate_model. keeps_trace_tac. Qed.

Lemma kt_prepare_fit_kwargs : keeps_trace prepare_fit_kwargs.
Proof. unfold prepare_fit_kwargs. keeps_trace_tac. Qed.

Lemma kt_instantiate_trainer : keeps_trace instantiate_trainer.
Proof. unfold instantiate_trainer. keeps_trace_tac. Qed.

Lemma kt_instantiate_classes :
  keeps_trace (instantiate_classes instantiate_subclasses).
Proof.
  unfold instantiate_classes.
  pose proof kt_instantiate_model. pose proof kt_prepare_fit_kwargs.
  pose proof kt_instantiate_trainer. keeps_trace_tac.
Qed.

Lemma kt_fit : keeps_trace (fit trainer_fit).
Proof. unfold fit. keeps_trace_tac. Qed.

Lemma kt_template d f e :
  Forall (λ c, keeps_trace c.2)
    (template Trainer env_var_name instantiate_subclasses trainer_fit ov d f e).
Proof.
  unfold template. repeat apply Forall_cons_2; try apply Forall_nil_2; simpl.
  - apply kt_init_parser.
  - apply kt_call_with_parser.
  - apply kt_add_core_arguments_to_parser.
  - apply kt_call_with_parser.
  - apply kt_parse_arguments.
  - apply kt_run_hook.
  - apply kt_instantiate_classes.
  - apply kt_run_hook.
  - apply kt_fit.
  - apply kt_run_hook.
Qed.

End TraceFacts.

(** One step: its body ran between the two events, or raised after the
    first. *)
Lemma in_step_run (s : step) (m : M state unit) (st : state) :
  keeps_trace m ->
  match in_step s m st with
  | (Ok _, st') => trace st' = trace st ++ [Enter s; Leave s]
  | (Raise e, st') =>
      trace st' = trace st ++ [Enter s]
      ∧ m (log (Enter s) st).2 = (Raise e, st')
  end.
Proof.
  intros Hm. unfold in_step, bind. simpl.
  set (st1 := {| self := self st; world := world st; trace := trace st ++ [Enter s] |}).
  specialize (Hm st1).
  destruct (m st1) as [[[]|e] s1]; simpl in *.
  - rewrite Hm. subst st1. simpl. by rewrite <- app_assoc.
  - done.
Qed.

(** A sequence of steps: all of them ran, or the steps before the failing
    one ran and that one was entered. *)
Lemma run_steps_trace (calls : list (step * M state unit)) :
  Forall (λ c, keeps_trace c.2) calls ->
  ∀ st,
    match run_steps calls st with
    | (Ok _, st') => trace st' = trace st ++ events (calls.*1)
    | (Raise _, st') =>
        ∃ done s rest,
          calls.*1 = done ++ s :: rest
          ∧ trace st' = trace st ++ events done ++ [Enter s]
    end.
Proof.
  induction 1 as [|[s m] calls Hm _ IH]; intros st; simpl.
  - by rewrite app_nil_r.
  - unfold bind at 1. pose proof (in_step_run s m st Hm) as Hs.
    destruct (in_step s m st) as [[[]|e] s1].
    + specialize (IH s1).
      destruct (run_steps calls s1) as [[[]|e] s2].
      * rewrite IH, Hs. unfold events. simpl. by rewrite <- app_assoc.
      * destruct IH as (done & s' & rest & Hsplit & Htrace).
        exists (s :: done), s', rest. split; [exact (f_equal (cons s) Hsplit)|].
        rewrite Htrace, Hs. unfold events. simpl. by rewrite <- !app_assoc.
    + destruct Hs as [Hs _]. exists [], s, (calls.*1). by split.
Qed.






Lemma template_steps Trainer env_var_name ivs trainer_fit ov d f e :
  (template Trainer env_var_name ivs trainer_fit ov d f e).*1 = all_steps.
Proof. done. Qed.


(** ** Failures of instantiation *)

Lemma run_steps_app (calls1 calls2 : list (step * M state unit)) (st : state) :
  run_steps (calls1 ++ calls2) st = bind (run_steps calls1) (λ _, run_steps calls2) st.
Proof.
  revert st. induction calls1 as [|[s m] calls1 IH]; intros st; simpl.
  - done.
  - unfold bind. destruct (in_step s m st) as [[[]|e] s1]; [|done].
    rewrite IH. done.
Qed.

Lemma in_step_Raise (s : step) (m : M state unit) (st st' : state) (e : error) :
  m (log (Enter s) st).2 = (Raise e, st') -> in_step s m st = (Raise e, st').
Proof. unfold in_step, bind. simpl. by intros ->. Qed.

(** The error of a constructor is the error of the method that calls it. *)
Lemma model_error_propagates (st : state) (ci kwv : pyval)
    (kw : gmap string pyval) (e : error) :
  config_init (self st) = Some ci ->
  get_or ci "model" (VDict ∅) = Ok kwv ->
  as_mapping kwv = Ok kw ->
  py_call (model_class (self st)) kw = Raise e ->
  instantiate_model st = (Raise e, st).
Proof.
  intros Hci Hget Hmap Hcall.
  unfold instantiate_model, attr, get_self, bind, ret, lift_result. simpl.
  by rewrite Hci, Hget, Hmap, Hcall.
Qed.

Lemma datamodule_error_propagates (st : state) (m ci kwv : pyval) (dc : class)
    (kw : gmap string pyval) (e : error) :
  model (self st) = Some m ->
  datamodule_class (self st) = Some dc ->
  config_init (self st) = Some ci ->
  get_or ci "data" (VDict ∅) = Ok kwv ->
  as_mapping kwv = Ok kw ->
  py_call dc kw = Raise e ->
  ∃ st', prepare_fit_kwargs st = (Raise e, st').
Proof.
  intros Hm Hdc Hci Hget Hmap Hcall.
  unfold prepare_fit_kwargs, attr, get_self, bind, ret, lift_result, modify_self, modify.
  simpl. rewrite Hm. simpl. rewrite Hdc. simpl. rewrite Hci. simpl.
  rewrite Hget, Hmap, Hcall. by eexists.
Qed.

Lemma trainer_error_propagates (st : state) (ci : pyval)
    (t : gmap string pyval) (e : error) :
  config_init (self st) = Some ci ->
  subscript ci "trainer" = Ok (VDict t) ->
  save_config_callback (self st) = None ->
  (∀ kw, py_call (trainer_class (self st)) kw = Raise e) ->
  ∃ st', instantiate_trainer st = (Raise e, st').
Proof.
  intros Hci Ht Hscb Hcall.
  unfold instantiate_trainer, attr, get_self, bind, ret, lift_result, modify_self, modify.
  simpl. rewrite Hci. simpl. rewrite Ht. simpl.
  destruct (is_None _); simpl; rewrite Hscb; simpl; rewrite Hcall; by eexists.
Qed.

(** A required constructor argument with no value: the constructor call
    is a [TypeError], and [instantiate_model] raises it. *)
Lemma required_argument_without_value (st : state) :
  model_class (self st) = Example.MyModel ->
  config_init (self st) = Some (VDict ∅) ->
  instantiate_model st = (Raise (TypeError "lr"), st).
Proof.
  intros Hm Hci.
  apply (model_error_propagates st (VDict ∅) (VDict ∅) ∅); try done.
  by rewrite Hm.
Qed.


(** * The statements at concrete inputs *)

(** C10 at [MyModel]: the default key gives [module.lr] and [module.x]; the
    pipeline registers [model.lr] and [model.x]. *)
Lemma module_args_default_key_witness :
  (add_module_args Example.MyModel None Example.parser_1).1
  = Ok ["module.lr"; "module.x"]
  ∧ ∃ st' p',
      add_core_arguments_to_parser Example.Trainer Example.state_3 = (Ok tt, st')
      ∧ parser (self st') = Some p'
      ∧ registered p'
        = ["config"; "trainer.callbacks"; "trainer.max_epochs"; "model.lr";
           "model.x"; "data.batch_size"].
Proof.
  destruct (module_args_default_key Example.Trainer Example.MyModel
              (LightningArgumentParser_init None "tool" None false "PL")
              Example.state_3)
    as (_ & _ & _ & st' & p' & Hrun & Hp & Hreg).
  - reflexivity.
  - reflexivity.
  - reflexivity.
  - reflexivity.
  - intros dc [= <-]. reflexivity.
  - split; [reflexivity|]. exists st', p'. split; [exact Hrun|]. split; [exact Hp|].
    exact Hreg.
Defined.

(** C4 at a trainer whose logger writes to [lightning_logs/version_0]. *)
Lemma on_train_start_saves_whole_tree_witness :
  ∃ w' written,
    on_train_start (VSaveConfigCallback Example.parser_1 (Example.config_1 VNone))
      (VInstance "Trainer" {[ "logger" := Example.logger ]}) VNone
      Example.empty_world
    = (Ok tt, w')
    ∧ w_files w' !! "lightning_logs/version_0/config.yaml" = Some written
    ∧ lookup_path ["trainer"; "callbacks"] written = Some VNone.
Proof.
  destruct (on_train_start_saves_whole_tree Example.parser_1 (Example.config_1 VNone)
              (VInstance "Trainer" {[ "logger" := Example.logger ]}) VNone
              "Trainer" "TensorBoardLogger" {[ "logger" := Example.logger ]}
              {[ "log_dir" := VStr "lightning_logs/version_0" ]}
              "lightning_logs/version_0" Example.empty_world)
    as (_ & (w' & written & Hrun & Hfile & _ & Hnone) & _).
  - reflexivity.
  - reflexivity.
  - reflexivity.
  - exists w', written. split; [exact Hrun|]. split; [exact Hfile|].
    apply Hnone. reflexivity.
Defined.

(** C7 at [--model.x=5] with [PL_MODEL_X=9] in the environment. *)
Lemma parse_follows_priority_witness :
  ∃ cfg,
    parse_args Example.env_var_name Example.parser_1 Example.world_1
    = (Ok cfg, Example.world_1)
    ∧ lookup_path ["model"; "x"] cfg = Some (VInt 5).
Proof.
  set (o := {| opt_group := Some "model"; opt_name := "x";
               opt_default := Some VNone; opt_config_file := false |}).
  set (r := parse_args Example.env_var_name Example.parser_1 Example.world_1).
  assert (Hr : r = (Ok (match r.1 with Ok c => c | Raise _ => VNone end),
                    Example.world_1)) by (vm_compute; reflexivity).
  exists (match r.1 with Ok c => c | Raise _ => VNone end).
  split; [exact Hr|].
  destruct (parse_follows_priority Example.env_var_name Example.parser_1
              Example.world_1 Example.world_1
              (take 4 (options Example.parser_1)) [] o
              (match r.1 with Ok c => c | Raise _ => VNone end))
    as (Hboth & _).
  - reflexivity.
  - reflexivity.
  - reflexivity.
  - exact Hr.
  - apply (Hboth (VInt 5) (VInt 9)); reflexivity.
Defined.




(** C8, as the code has it, for the key [max_epochs]. *)
Lemma config_overrides_keywords_witness :
  trainer_kwargs
    (self (instantiate_trainer
             (Example.state_1 (Some SaveConfigCallback) {[ "max_epochs" := VInt 7 ]}
                VNone)).2)
    !! "max_epochs"
  = Some (VInt 3).
Proof.
  set (st := Example.state_1 (Some SaveConfigCallback) {[ "max_epochs" := VInt 7 ]} VNone).
  destruct (config_overrides_keywords st (instantiate_trainer st).2
              (Example.config_1 VNone) (Example.trainer_config VNone)
              "max_epochs" (VInt 3))
    as (_ & Hother & _).
  - reflexivity.
  - reflexivity.
  - reflexivity.
  - vm_compute. reflexivity.
  - apply Hother. discriminate.
Defined.

(** C8 as stated fails for the key [callbacks]: it is both a keyword of the
    pipeline and a key of the resolved [trainer] configuration, where its
    value is [None], and the value passed to the trainer is neither. *)
Lemma callbacks_value_is_not_the_resolved_one :
  let kwargs := {[ "callbacks" := VList [Example.early_stopping] ]} in
  let run := Example.invoke kwargs Example.world_1 in
  run.1 = Ok tt
  ∧ kwargs !! "callbacks" = Some (VList [Example.early_stopping])
  ∧ (config_init (self run.2) ≫= lookup_path ["trainer"; "callbacks"]) = Some VNone
  ∧ (∃ p cfg, trainer_kwargs (self run.2) !! "callbacks"
              = Some (VList [VSaveConfigCallback p cfg]))
  ∧ trainer_kwargs (self run.2) !! "callbacks" ≠ Some VNone.
Proof.
  intros kwargs run. split; [by vm_compute|]. split; [by vm_compute|].
  split; [by vm_compute|]. split.
  - eexists _, _. by vm_compute.
  - vm_compute. discriminate.
Qed.

(** C5 with a parser whose expansion changes the tree: the callback holds
    the tree of the parse. *)
Lemma save_config_gets_raw_config_witness :
  let st' := (instantiate_classes Example.expand_model_x Example.state_2).2 in
  config_init (self st') ≠ config (self st')
  ∧ ∃ l,
      trainer_kwargs (self st') !! "callbacks"
      = Some (VList (l ++ [VSaveConfigCallback Example.parser_1 (Example.config_1 VNone)])).
Proof.
  intros st'. split.
  - vm_compute. discriminate.
  - destruct (save_config_gets_raw_config Example.expand_model_x Example.state_2 st'
                Example.parser_1 (Example.config_1 VNone) SaveConfigCallback)
      as (l & cb & tr & _ & Hpassed & _ & _ & _ & Hcb).
    + reflexivity.
    + reflexivity.
    + reflexivity.
    + vm_compute. reflexivity.
    + exists l. rewrite <- (Hcb eq_refl). exact Hpassed.
Defined.


(** * Further properties of the module *)

(** ** What a normal return of each method tells *)

Lemma in_step_inv_Ok (s : step) (m : M state unit) (st st' : state) :
  in_step s m st = (Ok tt, st') ->
  ∃ s1, m (log (Enter s) st).2 = (Ok tt, s1) ∧ st' = (log (Leave s) s1).2.
Proof.
  unfold in_step, bind. simpl.
  destruct (m _) as [[[]|e] s1]; intros H; [|discriminate].
  injection H as <-. by exists s1.
Qed.

Lemma instantiate_model_inv (st st' : state) :
  instantiate_model st = (Ok tt, st') ->
  ∃ ci kwv mkw m,
    config_init (self st) = Some ci
    ∧ get_or ci "model" (VDict ∅) = Ok kwv
    ∧ as_mapping kwv = Ok mkw
    ∧ py_call (model_class (self st)) mkw = Ok m
    ∧ st' = with_self (set_model m (self st)) st.
Proof.
  unfold instantiate_model. intros H.
  do 5 inv_bind H. injection H as <-.
  do 4 eexists. repeat split; eassumption.
Qed.

Lemma prepare_fit_kwargs_inv (st st' : state) :
  prepare_fit_kwargs st = (Ok tt, st') ->
  ∃ m,
    model (self st) = Some m
    ∧ match datamodule_class (self st) with
      | None => st' = with_self (set_fit_kwargs {[ "model" := m ]} (self st)) st
      | Some dc =>
          ∃ ci kwv dkw dm,
            config_init (self st) = Some ci
            ∧ get_or ci "data" (VDict ∅) = Ok kwv
            ∧ as_mapping kwv = Ok dkw
            ∧ py_call dc dkw = Ok dm
            ∧ st' = with_self
                      (set_fit_kwargs (<["datamodule" := dm]> {[ "model" := m ]})
                         (self st)) st
      end.
Proof.
  unfold prepare_fit_kwargs. intros H.
  do 3 inv_bind H. cbn in H. exists a. split; [done|].
  destruct (datamodule_class (self st)) as [dc|].
  - do 5 inv_bind H. injection H as <-. cbn in *.
    match goal with Hfk : Some _ = Some _ |- _ => injection Hfk as <- end.
    do 4 eexists. repeat split; eassumption.
  - by injection H as <-.
Qed.

(** [instantiate_trainer] changes [trainer_kwargs] and [trainer] only. *)
Lemma instantiate_trainer_frame (st st' : state) :
  instantiate_trainer st = (Ok tt, st') ->
  ∃ kw tr,
    st' = with_self (set_trainer tr (set_trainer_kwargs (λ _, kw) (self st))) st.
Proof.
  unfold instantiate_trainer. intros H.
  do 5 inv_bind H. cbn in H.
  apply bind_inv_Ok in H as ([] & s2 & Hs2 & H).
  assert (Hs2' : ∃ kw, s2 = with_self (set_trainer_kwargs (λ _, kw) (self st)) st).
  { destruct (is_None _); injection Hs2 as <-; by eexists. }
  destruct Hs2' as [kw1 ->].
  inv_bind H. cbn in H.
  apply bind_inv_Ok in H as ([] & s4 & Hs4 & H).
  assert (Hs4' : ∃ kw, s4 = with_self (set_trainer_kwargs (λ _, kw) (self st)) st).
  { destruct (save_config_callback (self st)) as [scb|].
    - destruct (dict_get kw1 "callbacks"); try discriminate.
      do 3 inv_bind Hs4. injection Hs4 as <-. by eexists.
    - injection Hs4 as <-. by eexists. }
  destruct Hs4' as [kw2 ->].
  do 2 inv_bind H. injection H as <-. by do 2 eexists.
Qed.

Lemma fit_inv (trainer_fit : pyval -> gmap string pyval -> M World pyval)
    (st st' : state) :
  fit trainer_fit st = (Ok tt, st') ->
  ∃ tr fk r w',
    trainer (self st) = Some tr
    ∧ fit_kwargs (self st) = Some fk
    ∧ trainer_fit tr fk (world st) = (Ok r, w')
    ∧ st' = {| self := set_fit_result r (self st); world := w'; trace := trace st |}.
Proof.
  unfold fit. intros H. do 2 inv_bind H.
  apply bind_inv_Ok in H as (r & s1 & Hfit & H).
  unfold in_world in Hfit.
  destruct (trainer_fit a a0 (world st)) as [r' w'] eqn:Hrun.
  injection Hfit as -> <-. injection H as <-.
  by exists a, a0, r, w'.
Qed.

Lemma parse_args_world (env_var_name : string -> string -> string)
    (p : LightningArgumentParser) (w : World) :
  (parse_args env_var_name p w).2 = w.
Proof. unfold parse_args. by destruct (parse_options _ _ _ _ _). Qed.

Lemma parse_arguments_inv (env_var_name : string -> string -> string)
    (st st' : state) :
  parse_arguments env_var_name st = (Ok tt, st') ->
  ∃ p cfg,
    parser (self st) = Some p
    ∧ parse_args env_var_name p (world st) = (Ok cfg, world st)
    ∧ st' = with_self (set_config cfg (self st)) st.
Proof.
  unfold parse_arguments. intros H. inv_bind H.
  apply bind_inv_Ok in H as (cfg & s1 & Hparse & H).
  unfold in_world in Hparse.
  pose proof (parse_args_world env_var_name a (world st)) as Hw.
  destruct (parse_args env_var_name a (world st)) as [r w'] eqn:Hpa.
  simpl in Hw. subst w'. injection Hparse as -> <-. injection H as <-.
  by exists a, cfg.
Qed.

(** ** An exception in any step *)

Lemma step_failure (calls : list (step * M state unit)) (n : nat) (s : step)
    (m : M state unit) (st sn s' : state) (e : error) :
  Forall (λ c, keeps_trace c.2) calls ->
  calls !! n = Some (s, m) ->
  run_steps (take n calls) st = (Ok tt, sn) ->
  m (log (Enter s) sn).2 = (Raise e, s') ->
  run_steps calls st = (Raise e, s')
  ∧ trace s' = trace st ++ events ((take n calls).*1) ++ [Enter s].
Proof.
  intros Hkt Hn Hbefore Hfail. split.
  - rewrite <- (take_drop_middle calls n (s, m) Hn), run_steps_app.
    erewrite bind_Ok by exact Hbefore.
    simpl. erewrite bind_Raise; [done|]. by apply in_step_Raise.
  - pose proof (run_steps_trace (take n calls) (Forall_take _ _ _ Hkt) st) as Hrun.
    rewrite Hbefore in Hrun.
    assert (Hm : keeps_trace m).
    { eapply (Forall_lookup_1 _ _ _ _ Hkt Hn). }
    specialize (Hm (log (Enter s) sn).2). rewrite Hfail in Hm. simpl in Hm.
    rewrite Hm, Hrun. by rewrite <- app_assoc.
Qed.

Lemma elem_of_events (ss : list step) (ev : event) :
  ev ∈ events ss ↔ ∃ s, s ∈ ss ∧ (ev = Enter s ∨ ev = Leave s).
Proof.
  unfold events. rewrite list_elem_of_bind. split.
  - intros (s & Hev & Hs). exists s. split; [done|].
    apply elem_of_cons in Hev as [->|Hev]; [by left|].
    apply elem_of_cons in Hev as [->|Hev]; [by right|].
    by apply elem_of_nil in Hev.
  - intros (s & Hs & [->| ->]); exists s; split; try done.
    + apply elem_of_cons. by left.
    + apply elem_of_cons. right. apply elem_of_cons. by left.
Qed.

Lemma all_steps_NoDup : NoDup all_steps.
Proof. apply (bool_decide_unpack _). by vm_compute. Qed.

(** X1.  The body of [__init__] handles no exception: when the steps before
    some step have returned and that step raises, be it an extension point,
    the parse, the instantiation or the run, the invocation ends with that
    very exception in the state the step left, the step was entered and not
    left, and none of the steps after it was entered. *)
Theorem any_step_failure_ends_invocation
    (Trainer : class) (env_var_name : string -> string -> string)
    (instantiate_subclasses : LightningArgumentParser -> pyval -> result pyval)
    (trainer_fit : pyval -> gmap string pyval -> M World pyval)
    (ov : overrides)
    (model_class : class) (datamodule_class : option class)
    (save_config_callback : option (option callback_class))
    (trainer_class : option class) (description : option string)
    (default_config_files : option (list string)) (parse_env : option bool)
    (kwargs : gmap string pyval) (w : World)
    (n : nat) (s : step) (m : M state unit) (sn s' : state) (e : error) :
  let calls := template Trainer env_var_name instantiate_subclasses trainer_fit ov
                 (default "pytorch-lightning trainer command line tool" description)
                 default_config_files (default false parse_env) in
  calls !! n = Some (s, m) ->
  run_steps (take n calls)
    (initial_state Trainer model_class datamodule_class save_config_callback
       trainer_class kwargs w)
  = (Ok tt, sn) ->
  m (log (Enter s) sn).2 = (Raise e, s') ->
  LightningCLI_init Trainer env_var_name instantiate_subclasses trainer_fit ov
    model_class datamodule_class save_config_callback trainer_class description
    default_config_files parse_env kwargs w
  = (Raise e, s')
  ∧ trace s' = events (take n all_steps) ++ [Enter s]
  ∧ (Leave s ∉ trace s')
  ∧ (∀ later, later ∈ drop (S n) all_steps ->
       (Enter later ∉ trace s') ∧ (Leave later ∉ trace s')).
Proof.
  intros calls Hn Hbefore Hfail.
  destruct (step_failure calls n s m _ sn s' e (kt_template _ _ _ _ _ _ _ _)
              Hn Hbefore Hfail) as [Hrun Htrace].
  simpl in Htrace. rewrite fmap_take in Htrace. subst calls.
  rewrite template_steps in Htrace.
  assert (Hs : all_steps !! n = Some s).
  { rewrite <- (template_steps Trainer env_var_name instantiate_subclasses
                  trainer_fit ov
                  (default "pytorch-lightning trainer command line tool" description)
                  default_config_files (default false parse_env)).
    rewrite list_lookup_fmap, Hn. done. }
  pose proof all_steps_NoDup as Hnd.
  rewrite <- (take_drop_middle all_steps n s Hs) in Hnd.
  apply NoDup_app in Hnd as (_ & Hdisj & Hnd).
  apply NoDup_cons in Hnd as [Hs_later _].
  split; [exact Hrun|]. split; [exact Htrace|]. split.
  - rewrite Htrace. intros Hin. apply elem_of_app in Hin as [Hin|Hin].
    + apply elem_of_events in Hin as (s0 & Hs0 & [Heq|Heq]); [discriminate|].
      injection Heq as <-. apply (Hdisj s Hs0). apply elem_of_cons. by left.
    + apply elem_of_cons in Hin as [Hin|Hin]; [discriminate|].
      by apply elem_of_nil in Hin.
  - intros later Hlater.
    assert (Hnot : (later ∉ take n all_steps) ∧ later ≠ s).
    { split.
      - intros Hin. apply (Hdisj later Hin). apply elem_of_cons. by right.
      - intros ->. by apply Hs_later. }
    destruct Hnot as [Hnot Hne].
    rewrite Htrace. split; intros Hin; apply elem_of_app in Hin as [Hin|Hin].
    + apply elem_of_events in Hin as (s0 & Hs0 & [Heq|Heq]); [|discriminate].
      injection Heq as <-. by apply Hnot.
    + apply elem_of_cons in Hin as [Hin|Hin]; [by injection Hin|].
      by apply elem_of_nil in Hin.
    + apply elem_of_events in Hin as (s0 & Hs0 & [Heq|Heq]); [discriminate|].
      injection Heq as <-. by apply Hnot.
    + apply elem_of_cons in Hin as [Hin|Hin]; [discriminate|].
      by apply elem_of_nil in Hin.
Qed.

(** ** The capability checks of the registration step *)

Lemma failed_registration (c : class) (base k : string) (p : LightningArgumentParser) :
  issubclass c base = false ->
  bind (py_assert (issubclass c base)) (λ _, add_class_arguments c k) p
  = (Raise AssertionError, p).
Proof. intros Hsub. unfold bind, py_assert. by rewrite Hsub. Qed.

Lemma issubclass_refl (c : class) : issubclass c (cls_name c) = true.
Proof. unfold issubclass. apply bool_decide_eq_true_2, elem_of_cons. by left. Qed.

(** The outcome of [add_core_arguments_to_parser], by the first check that
    fails. *)
Lemma add_core_arguments_to_parser_outcome (Trainer : class) (st : state)
    (p : LightningArgumentParser) :
  parser (self st) = Some p ->
  ∃ r p',
    add_core_arguments_to_parser Trainer st
    = (r, with_self (set_parser p' (self st)) st)
    ∧ if issubclass (trainer_class (self st)) (cls_name Trainer) then
        if issubclass (model_class (self st)) "LightningModule" then
          match datamodule_class (self st) with
          | Some dc =>
              if issubclass dc "LightningDataModule" then
                r = Ok tt
                ∧ registered p'
                  = registered p ++ qualified "trainer" (trainer_class (self st))
                    ++ qualified "model" (model_class (self st))
                    ++ qualified "data" dc
              else
                r = Raise AssertionError
                ∧ registered p'
                  = registered p ++ qualified "trainer" (trainer_class (self st))
                    ++ qualified "model" (model_class (self st))
          | None =>
              r = Ok tt
              ∧ registered p'
                = registered p ++ qualified "trainer" (trainer_class (self st))
                  ++ qualified "model" (model_class (self st))
          end
        else
          r = Raise AssertionError
          ∧ registered p'
            = registered p ++ qualified "trainer" (trainer_class (self st))
      else
        r = Raise AssertionError ∧ p' = p.
Proof.
  intros Hp. unfold add_core_arguments_to_parser.
  rewrite (bind_Ok _ _ st (self st) st) by done.
  destruct (issubclass (trainer_class (self st)) (cls_name Trainer)) eqn:Ht.
  2: { erewrite bind_Raise; cycle 1.
       { eapply on_parser_run; [exact Hp|].
         unfold add_trainer_args. cbn [default from_option id].
         by apply failed_registration. }
       by eexists _, p. }
  erewrite bind_Ok; cycle 1.
  { eapply on_parser_run; [exact Hp|].
    unfold add_trainer_args. cbn [default from_option id].
    by apply checked_registration. }
  set (st1 := {| self := _ |}).
  rewrite (bind_Ok _ _ st1 (self st1) st1) by done.
  subst st1. cbn [self model_class set_parser].
  destruct (issubclass (model_class (self st)) "LightningModule") eqn:Hm.
  2: { erewrite bind_Raise; cycle 1.
       { eapply on_parser_run; [done|].
         unfold add_module_args. cbn [default from_option id].
         by apply failed_registration. }
       eexists _, _. split; [reflexivity|]. split; [done|].
       apply registered_set_options. }
  erewrite bind_Ok; cycle 1.
  { eapply on_parser_run; [done|].
    unfold add_module_args. cbn [default from_option id].
    by apply checked_registration. }
  set (st2 := {| self := _ |}).
  rewrite (bind_Ok _ _ st2 (self st2) st2) by done.
  subst st2. cbn [self datamodule_class set_parser].
  destruct (datamodule_class (self st)) as [dc|] eqn:Hdc.
  - destruct (issubclass dc "LightningDataModule") eqn:Hd.
    + erewrite bind_Ok; cycle 1.
      { eapply on_parser_run; [done|].
        unfold add_datamodule_args. cbn [default from_option id].
        by apply checked_registration. }
      eexists _, _. split; [reflexivity|]. split; [done|].
      unfold registered. simpl.
      by rewrite !fmap_app, !class_option_names, <- !app_assoc.
    + erewrite bind_Raise; cycle 1.
      { eapply on_parser_run; [done|].
        unfold add_datamodule_args. cbn [default from_option id].
        by apply failed_registration. }
      eexists _, _. split; [reflexivity|]. split; [done|].
      unfold registered. simpl.
      by rewrite !fmap_app, !class_option_names, <- !app_assoc.
  - eexists _, _. split; [reflexivity|]. split; [done|].
    unfold registered. simpl.
    by rewrite !fmap_app, !class_option_names, <- !app_assoc.
Qed.

(** X2.  [add_core_arguments_to_parser] checks the trainer class, then the
    model class, then the data module class if there is one.  The first
    class that fails its check ends the step with the assertion error, and
    the options of the classes checked before it stay registered: none for a
    failing trainer class, the trainer's for a failing model class, the
    trainer's and the model's for a failing data module class.  Nothing but
    [self.parser] changes. *)
Theorem registration_checks_in_order (Trainer : class) (st : state)
    (p : LightningArgumentParser) :
  parser (self st) = Some p ->
  ∃ r p',
    add_core_arguments_to_parser Trainer st
    = (r, with_self (set_parser p' (self st)) st)
    ∧ (issubclass (trainer_class (self st)) (cls_name Trainer) = false ->
       r = Raise AssertionError ∧ registered p' = registered p)
    ∧ (issubclass (trainer_class (self st)) (cls_name Trainer) = true ->
       issubclass (model_class (self st)) "LightningModule" = false ->
       r = Raise AssertionError
       ∧ registered p'
         = registered p ++ qualified "trainer" (trainer_class (self st)))
    ∧ (∀ dc,
         issubclass (trainer_class (self st)) (cls_name Trainer) = true ->
         issubclass (model_class (self st)) "LightningModule" = true ->
         datamodule_class (self st) = Some dc ->
         issubclass dc "LightningDataModule" = false ->
         r = Raise AssertionError
         ∧ registered p'
           = registered p ++ qualified "trainer" (trainer_class (self st))
             ++ qualified "model" (model_class (self st))).
Proof.
  intros Hp.
  destruct (add_core_arguments_to_parser_outcome Trainer st p Hp)
    as (r & p' & Hrun & Hcases).
  exists r, p'. split; [exact Hrun|].
  destruct (issubclass (trainer_class (self st)) (cls_name Trainer)).
  - destruct (issubclass (model_class (self st)) "LightningModule").
    + split; [discriminate|]. split; [discriminate|].
      intros dc _ _ Hdc Hd. rewrite Hdc, Hd in Hcases. exact Hcases.
    + split; [discriminate|]. split; [|discriminate].
      intros _ _. exact Hcases.
  - destruct Hcases as [-> ->]. split; [done|]. split; discriminate.
Qed.

(** X3.  With the extension points of the base class and the default
    trainer class, a model class that is no [LightningModule] makes the
    invocation end with the assertion error in the registration step:
    nothing is parsed, nothing is instantiated, and the parser holds the
    [--config] option and the trainer's options only. *)
Theorem non_module_model_class_rejected
    (Trainer : class) (env_var_name : string -> string -> string)
    (instantiate_subclasses : LightningArgumentParser -> pyval -> result pyval)
    (trainer_fit : pyval -> gmap string pyval -> M World pyval)
    (mc : class) (dmc : option class)
    (scb : option (option callback_class))
    (description : option string)
    (default_config_files : option (list string)) (parse_env : option bool)
    (kwargs : gmap string pyval) (w : World) :
  issubclass mc "LightningModule" = false ->
  let run := LightningCLI_init Trainer env_var_name instantiate_subclasses
               trainer_fit base_overrides mc dmc
               scb None description default_config_files
               parse_env kwargs w in
  run.1 = Raise AssertionError
  ∧ trace run.2
    = events [InitParser; AddArgumentsToParser] ++ [Enter AddCoreArgumentsToParser]
  ∧ config (self run.2) = None
  ∧ model (self run.2) = None
  ∧ trainer (self run.2) = None
  ∧ world run.2 = w
  ∧ ∃ p, parser (self run.2) = Some p
         ∧ registered p = "config" :: qualified "trainer" Trainer.
Proof.
  intros Hm run. subst run. unfold LightningCLI_init, pipeline.
  set (calls := template _ _ _ _ _ _ _ _).
  set (st0 := initial_state _ _ _ _ _ _ _).
  destruct (run_steps (take 2 calls) st0) as [r2 s2] eqn:Hbefore.
  assert (Hr2 : r2 = Ok tt ∧ ∃ p0, parser (self s2) = Some p0
                ∧ registered p0 = ["config"]
                ∧ trainer_class (self s2) = Trainer
                ∧ model_class (self s2) = mc
                ∧ config (self s2) = None ∧ model (self s2) = None
                ∧ trainer (self s2) = None ∧ world s2 = w).
  { subst calls st0. cbn in Hbefore. injection Hbefore as <- <-.
    split; [done|]. eexists. by repeat split. }
  destruct Hr2 as (-> & p0 & Hp0 & Hreg0 & Htc & Hmc & Hcfg & Hmod & Htr & Hw).
  set (s2' := (log (Enter AddCoreArgumentsToParser) s2).2).
  destruct (add_core_arguments_to_parser_outcome Trainer s2' p0 Hp0)
    as (r & p' & Hrun & Hcases).
  cbn [s2' log modify self snd] in Hcases.
  rewrite Htc, issubclass_refl, Hmc, Hm in Hcases. destruct Hcases as [-> Hreg].
  destruct (step_failure calls 2 AddCoreArgumentsToParser
              (add_core_arguments_to_parser Trainer) st0 s2 _ AssertionError
              (kt_template _ _ _ _ _ _ _ _) eq_refl Hbefore Hrun)
    as [Hfinal _].
  rewrite Hfinal. cbn [fst snd with_self self trace world set_parser
                       config model trainer parser].
  repeat split; try done.
  - pose proof (run_steps_trace (take 2 calls)
                  (Forall_take _ _ _ (kt_template _ _ _ _ _ _ _ _)) st0) as Ht.
    rewrite Hbefore in Ht. subst s2'. cbn [log modify snd trace].
    rewrite Ht. done.
  - exists p'. split; [done|]. by rewrite Hreg, Hreg0.
Qed.

(** ** The keyword arguments of the trainer *)

(** The keyword arguments that a normal return of [instantiate_trainer]
    has passed: the merge, but for the entry ['callbacks'], which is always
    there. *)
Lemma trainer_kwargs_passed (st st' : state) (ci : pyval) (t : gmap string pyval) :
  config_init (self st) = Some ci ->
  subscript ci "trainer" = Ok (VDict t) ->
  instantiate_trainer st = (Ok tt, st') ->
  (∀ k, k ≠ "callbacks" ->
        trainer_kwargs (self st') !! k = (t ∪ trainer_kwargs (self st)) !! k)
  ∧ is_Some (trainer_kwargs (self st') !! "callbacks")
  ∧ ∃ tr, py_call (trainer_class (self st)) (trainer_kwargs (self st')) = Ok tr.
Proof.
  intros Hci Ht Hrun.
  apply instantiate_trainer_inv in Hrun
    as (ci' & t' & kw2 & tr & Hci' & Ht' & Hkw & Hcall & Hkw2 & _).
  rewrite Hci in Hci'. injection Hci' as <-.
  rewrite Ht in Ht'. injection Ht' as <-.
  cbv zeta in Hkw. rewrite Hkw2.
  unfold dict_update in Hkw.
  set (kw0 := t ∪ trainer_kwargs (self st)) in *.
  destruct (callbacks_after_default kw0) as (Hcb & Hother & _). cbv zeta in Hcb, Hother.
  destruct (save_config_callback (self st)) as [scb|].
  - destruct Hkw as (l & p & cfg & cb & _ & _ & _ & _ & ->).
    split; [|split; [|by exists tr]].
    + intros k Hk. rewrite lookup_insert_ne by done. by apply Hother.
    + rewrite lookup_insert_eq. by eexists.
  - subst kw2. split; [|split; [|by exists tr]].
    + intros k Hk. by apply Hother.
    + rewrite Hcb. by eexists.
Qed.

Lemma py_call_accepts (c : class) (kw : gmap string pyval) (v : pyval) (k : string) :
  py_call c kw = Ok v ->
  cls_var_keyword c = false ->
  is_Some (kw !! k) ->
  k ∈ param_name <$> init_params c.
Proof.
  unfold py_call. intros Hcall Hvar Hk.
  destruct (bind_params (init_params c) kw) as [bound|e]; [|discriminate].
  destruct (unexpected_keywords c kw) as [|k' ks] eqn:Hun.
  - destruct (decide (k ∈ param_name <$> init_params c)) as [Hin|Hnot]; [done|].
    exfalso. eapply (filter_nil_not_elem_of _ _ k Hun Hnot).
    by apply elem_of_elements, elem_of_dom.
  - rewrite Hvar in Hcall. discriminate.
Qed.

(** X4.  A keyword argument of the pipeline whose key the resolved
    [trainer] configuration does not have reaches the constructor of the
    trainer unchanged, and no key is invented: apart from ['callbacks'],
    which is always passed, the keys passed are those of the keyword
    arguments and of the configuration. *)
Theorem keyword_only_arguments_pass_through (st st' : state) (ci : pyval)
    (t : gmap string pyval) :
  config_init (self st) = Some ci ->
  subscript ci "trainer" = Ok (VDict t) ->
  instantiate_trainer st = (Ok tt, st') ->
  (∀ k, k ≠ "callbacks" -> t !! k = None ->
        trainer_kwargs (self st') !! k = trainer_kwargs (self st) !! k)
  ∧ (∀ k, is_Some (trainer_kwargs (self st') !! k)
          ↔ k = "callbacks"
            ∨ is_Some (trainer_kwargs (self st) !! k)
            ∨ is_Some (t !! k))
  ∧ ∃ tr, trainer (self st') = Some tr
          ∧ py_call (trainer_class (self st)) (trainer_kwargs (self st')) = Ok tr.
Proof.
  intros Hci Ht Hrun.
  destruct (trainer_kwargs_passed st st' ci t Hci Ht Hrun) as (Hother & Hcb & _).
  apply instantiate_trainer_inv in Hrun
    as (_ & _ & kw2 & tr & _ & _ & _ & Hcall & Hkw2 & Htr & _).
  split; [|split].
  - intros k Hk Hnone. rewrite Hother by done. by apply lookup_union_r.
  - intros k. destruct (decide (k = "callbacks")) as [->|Hk].
    + split; [by left|by intros _].
    + rewrite Hother by done. rewrite lookup_union_is_Some. split.
      * intros [H|H]; right; [by right|by left].
      * intros [H|[H|H]]; [done|by right|by left].
  - exists tr. by rewrite Hkw2.
Qed.

(** X5.  A trainer class whose constructor has no [**kwargs] is
    constructed only if it has a parameter for every key it is given: one
    named [callbacks], since that keyword is always passed, and one for each
    keyword argument of the pipeline and each key of the resolved [trainer]
    configuration.  Otherwise [instantiate_trainer] does not return
    normally. *)
Theorem trainer_must_accept_every_key (st st' : state) (ci : pyval)
    (t : gmap string pyval) (k : string) :
  config_init (self st) = Some ci ->
  subscript ci "trainer" = Ok (VDict t) ->
  cls_var_keyword (trainer_class (self st)) = false ->
  instantiate_trainer st = (Ok tt, st') ->
  k = "callbacks" ∨ is_Some (trainer_kwargs (self st) !! k) ∨ is_Some (t !! k) ->
  k ∈ param_name <$> init_params (trainer_class (self st)).
Proof.
  intros Hci Ht Hvar Hrun Hk.
  destruct (trainer_kwargs_passed st st' ci t Hci Ht Hrun) as (Hother & Hcb & tr & Hcall).
  apply (py_call_accepts _ _ _ _ Hcall Hvar).
  destruct (decide (k = "callbacks")) as [->|Hne]; [done|].
  rewrite Hother by done. rewrite lookup_union_is_Some.
  destruct Hk as [Hk|[Hk|Hk]]; [done|by right|by left].
Qed.

(** ** Sections that the expanded configuration lacks *)

(** X6.  The three sections of the expanded configuration are not read the
    same way.  Without a ['trainer'] section [instantiate_trainer] raises
    the key error and changes nothing.  Without a ['model'] section the model
    is constructed with no keyword argument, and without a ['data'] section
    so is the data module; when the constructor of the data module raises,
    [fit_kwargs] is left holding the model alone. *)
Theorem missing_sections (st : state) (ci : gmap string pyval) :
  config_init (self st) = Some (VDict ci) ->
  (ci !! "trainer" = None ->
   instantiate_trainer st = (Raise (KeyError "trainer"), st))
  ∧ (ci !! "model" = None ->
     instantiate_model st
     = match py_call (model_class (self st)) ∅ with
       | Ok m => (Ok tt, with_self (set_model m (self st)) st)
       | Raise e => (Raise e, st)
       end)
  ∧ (∀ dc m,
       ci !! "data" = None ->
       datamodule_class (self st) = Some dc ->
       model (self st) = Some m ->
       prepare_fit_kwargs st
       = match py_call dc ∅ with
         | Ok dm =>
             (Ok tt,
              with_self
                (set_fit_kwargs (<["datamodule" := dm]> {[ "model" := m ]}) (self st))
                st)
         | Raise e =>
             (Raise e, with_self (set_fit_kwargs {[ "model" := m ]} (self st)) st)
         end).
Proof.
  intros Hci. split; [|split].
  - intros Hnone.
    unfold instantiate_trainer, attr, get_self, bind, ret, raise, lift_result.
    simpl. rewrite Hci. simpl. by rewrite Hnone.
  - intros Hnone.
    unfold instantiate_model, attr, get_self, bind, ret, raise, lift_result,
      modify_self, modify.
    simpl. rewrite Hci. simpl. rewrite Hnone. simpl.
    by destruct (py_call (model_class (self st)) ∅).
  - intros dc m Hnone Hdc Hm.
    unfold prepare_fit_kwargs, attr, get_self, bind, ret, raise, lift_result,
      modify_self, modify.
    simpl. rewrite Hm. simpl. rewrite Hdc. simpl. rewrite Hci. simpl.
    rewrite Hnone. simpl.
    by destruct (py_call dc ∅).
Qed.

(** ** A ['callbacks'] value that is no list *)

(** X7.  With a save-config class configured, a ['callbacks'] value that is
    neither [None] nor a list, a single callback object for one, makes
    [instantiate_trainer] raise the attribute error of the missing [append]:
    the trainer is not constructed, and [trainer_kwargs] is left as the
    merge made it. *)
Theorem single_callback_is_rejected (st : state) (ci : pyval)
    (t : gmap string pyval) (scb : callback_class) (v : pyval) :
  config_init (self st) = Some ci ->
  subscript ci "trainer" = Ok (VDict t) ->
  save_config_callback (self st) = Some scb ->
  dict_update (trainer_kwargs (self st)) t !! "callbacks" = Some v ->
  is_None v = false ->
  (∀ l, v ≠ VList l) ->
  instantiate_trainer st
  = (Raise (AttributeError "append"),
     with_self (set_trainer_kwargs (λ kw, dict_update kw t) (self st)) st)
  ∧ trainer (set_trainer_kwargs (λ kw, dict_update kw t) (self st)) = trainer (self st).
Proof.
  intros Hci Ht Hscb Hv Hnone Hlist. split; [|done].
  unfold instantiate_trainer.
  rewrite (bind_Ok _ _ st ci st) by (by apply attr_run).
  rewrite (bind_Ok _ _ st (VDict t) st) by (unfold lift_result; by rewrite Ht).
  rewrite (bind_Ok _ _ st t st) by done.
  erewrite bind_Ok by reflexivity.
  erewrite bind_Ok by reflexivity.
  cbn [self set_trainer_kwargs trainer_kwargs].
  unfold dict_get at 1. rewrite Hv. cbn [default from_option id]. rewrite Hnone.
  erewrite bind_Ok by reflexivity.
  erewrite bind_Ok by reflexivity.
  cbn [self set_trainer_kwargs trainer_kwargs save_config_callback].
  rewrite Hscb. unfold dict_get. rewrite Hv. cbn [default from_option id].
  destruct v; try done. by destruct (Hlist l).
Qed.

(** ** The run-start hook without a log directory *)

(** X8.  The run-start hook needs [trainer.logger.log_dir] to be a string.
    When the trainer has no logger, as one built with the logger disabled,
    or the logger has no log directory, the hook raises the attribute error
    of the failed access, and when the log directory is not a string it
    raises a type error; in all these cases no file is written. *)
Theorem on_train_start_without_log_dir (self_cb trainer pl_module : pyval) (w : World) :
  match log_dir_of trainer with
  | Raise e => on_train_start self_cb trainer pl_module w = (Raise e, w)
  | Ok (VStr d) => True
  | Ok _ => ∃ msg, on_train_start self_cb trainer pl_module w = (Raise (TypeError msg), w)
  end
  ∧ (getattr trainer "logger" = Ok VNone ->
     on_train_start self_cb trainer pl_module w = (Raise (AttributeError "log_dir"), w)).
Proof.
  unfold log_dir_of, on_train_start, bind, lift_result, raise. split.
  - destruct (getattr trainer "logger") as [logger|e]; [|done].
    destruct (getattr logger "log_dir") as [[]|e]; try done; by eexists.
  - by intros ->.
Qed.

(** ** The path of the saved file *)

Lemma ends_with_slash_split (d : string) :
  ends_with_slash d = true -> ∃ dir, d = dir +:+ "/".
Proof.
  induction d as [|c d IH]; [done|]. destruct d as [|c' d'].
  - simpl. intros ->%bool_decide_eq_true_1. by exists "".
  - change (ends_with_slash (String c (String c' d')))
      with (ends_with_slash (String c' d')).
    intros [dir Hdir]%IH. exists (String c dir).
    rewrite Hdir. reflexivity.
Qed.

Lemma append_assoc (a b c : string) : (a +:+ b) +:+ c = a +:+ (b +:+ c).
Proof.
  induction a as [|x a IH]; [done|].
  change (String x ((a +:+ b) +:+ c) = String x (a +:+ (b +:+ c))).
  by rewrite IH.
Qed.

(** X9.  The hook saves to a file named [config.yaml] in the log directory:
    for a log directory that is not the empty string the path is a directory
    name followed by [/config.yaml], where the directory name is the log
    directory itself or, when that ends in a slash, the log directory without
    this slash, so that no slash is doubled.  For the empty string the path
    is [config.yaml], relative to the working directory. *)
Theorem config_path_shape (d : string) :
  (d ≠ "" ->
   ∃ dir, os_path_join d "config.yaml" = dir +:+ "/config.yaml"
          ∧ (dir = d ∨ d = dir +:+ "/"))
  ∧ os_path_join "" "config.yaml" = "config.yaml".
Proof.
  split; [|done]. intros Hd. unfold os_path_join. cbn [starts_with_slash].
  rewrite bool_decide_eq_false_2 by (intros [=]).
  rewrite (bool_decide_eq_false_2 _ Hd). cbn [orb].
  destruct (ends_with_slash d) eqn:Hs.
  - apply ends_with_slash_split in Hs as [dir ->]. exists dir.
    split; [|by right]. by rewrite append_assoc.
  - exists d. split; [done|by left].
Qed.

(** ** What the instantiation step builds *)

Lemma instantiate_classes_result
    (ivs : LightningArgumentParser -> pyval -> result pyval) (st st' : state) :
  instantiate_classes ivs st = (Ok tt, st') ->
  ∃ p cfg ci mkw m fk kw tr,
    parser (self st) = Some p
    ∧ config (self st) = Some cfg
    ∧ ivs p cfg = Ok ci
    ∧ get_or ci "model" (VDict ∅) = Ok (VDict mkw)
    ∧ py_call (model_class (self st)) mkw = Ok m
    ∧ match datamodule_class (self st) with
      | None => fk = {[ "model" := m ]}
      | Some dc =>
          ∃ dkw dm,
            get_or ci "data" (VDict ∅) = Ok (VDict dkw)
            ∧ py_call dc dkw = Ok dm
            ∧ fk = <["datamodule" := dm]> {[ "model" := m ]}
      end
    ∧ st' = with_self
              (set_trainer tr
                 (set_trainer_kwargs (λ _, kw)
                    (set_fit_kwargs fk
                       (set_model m (set_config_init ci (self st))))))
              st.
Proof.
  unfold instantiate_classes. intros H.
  do 6 inv_bind H.
  match goal with Hm : instantiate_model _ = _ |- _ =>
    destruct a2; apply instantiate_model_inv in Hm
      as (ci' & kwv & mkw & m & Hci' & Hget & Hmap%as_mapping_inv & Hcall & ->)
  end.
  cbn in Hci'. injection Hci' as <-. subst kwv.
  match goal with Hf : prepare_fit_kwargs _ = _ |- _ =>
    destruct a3; apply prepare_fit_kwargs_inv in Hf as (m' & Hm' & Hfk)
  end.
  cbn in Hm'. injection Hm' as <-. cbn [with_self self datamodule_class
    set_model set_config_init config_init] in Hfk.
  apply instantiate_trainer_frame in H as (kw & tr & ->).
  destruct (datamodule_class (self st)) as [dc|] eqn:Hdc.
  - destruct Hfk as (ci' & kwv & dkw & dm & Hci' & Hgetd & Hmapd%as_mapping_inv
                     & Hcalld & ->).
    injection Hci' as <-. subst kwv.
    exists a, a0, a1, mkw, m, (<["datamodule" := dm]> {[ "model" := m ]}), kw, tr.
    repeat split; try done. by exists dkw, dm.
  - subst s0.
    exists a, a0, a1, mkw, m, {[ "model" := m ]}, kw, tr.
    by repeat split.
Qed.

(** X10.  After a normal return of the instantiation step, [self.model] is
    the object that the model class built from the ['model'] section of the
    expanded configuration (from no argument if there is no such section),
    and the keyword arguments prepared for the run hold that same object
    under ['model']; they hold a ['datamodule'], built from the ['data']
    section, exactly when a data module class was given.  The expanded
    configuration is kept in [self.config_init], and the world is not
    touched. *)
Theorem instantiation_builds_run_arguments
    (ivs : LightningArgumentParser -> pyval -> result pyval) (st st' : state) :
  instantiate_classes ivs st = (Ok tt, st') ->
  ∃ p cfg ci mkw m fk,
    parser (self st) = Some p
    ∧ config (self st) = Some cfg
    ∧ ivs p cfg = Ok ci
    ∧ config_init (self st') = Some ci
    ∧ get_or ci "model" (VDict ∅) = Ok (VDict mkw)
    ∧ py_call (model_class (self st)) mkw = Ok m
    ∧ model (self st') = Some m
    ∧ fit_kwargs (self st') = Some fk
    ∧ fk !! "model" = Some m
    ∧ (∀ k, is_Some (fk !! k)
            ↔ k = "model" ∨ (k = "datamodule" ∧ is_Some (datamodule_class (self st))))
    ∧ (∀ dc, datamodule_class (self st) = Some dc ->
             ∃ dkw dm,
               get_or ci "data" (VDict ∅) = Ok (VDict dkw)
               ∧ py_call dc dkw = Ok dm
               ∧ fk !! "datamodule" = Some dm)
    ∧ world st' = world st.
Proof.
  intros Hrun.
  apply instantiate_classes_result in Hrun
    as (p & cfg & ci & mkw & m & fk & kw & tr & Hp & Hcfg & Hivs & Hget & Hcall
        & Hfk & ->).
  exists p, cfg, ci, mkw, m, fk. do 8 (split; [done|]).
  destruct (datamodule_class (self st)) as [dc|].
  - destruct Hfk as (dkw & dm & Hgetd & Hcalld & ->).
    split; [by rewrite lookup_insert_ne, lookup_singleton_eq|]. split; [|split; [|done]].
    + intros k. destruct (decide (k = "datamodule")) as [->|Hk].
      * rewrite lookup_insert_eq. split; [intros _; right; by split|by intros _].
      * rewrite lookup_insert_ne by done.
        destruct (decide (k = "model")) as [->|Hk'].
        -- rewrite lookup_singleton_eq. split; [by left|by intros _].
        -- rewrite lookup_singleton_ne by done.
           split; [by intros []|]. by intros [|[]].
    + intros dc' [= <-]. exists dkw, dm. by rewrite lookup_insert_eq.
  - subst fk. split; [by rewrite lookup_singleton_eq|]. split; [|split; [|done]].
    + intros k. destruct (decide (k = "model")) as [->|Hk'].
      * rewrite lookup_singleton_eq. split; [by left|by intros _].
      * rewrite lookup_singleton_ne by done.
        split; [by intros []|]. intros [|[_ []]]; done.
    + discriminate.
Qed.
